(** * gossh: remote targets over SSH ([rmt/rmt.go]) and tree indentation

    A shallow embedding of the [rmt] package of gossh: the [Remote] target,
    its command runner with sudo escalation, the hand-rolled scp push, the
    per-user sftp client cache and the output scrubber.  Go strings are byte
    sequences and are modelled by [string] (a list of 8-bit [ascii]); Go's
    [int] and [int64] by [Z]; [uint32] by [N]; maps by [gmap]. *)

From Stdlib Require Import ZArith NArith Lia List Ascii String Bool.
From Stdlib Require Import DecimalString OctalString.
From stdpp Require Import gmap strings list fin_maps.

Local Open Scope Z_scope.

(** ** Text: the pieces of Go's [strings], [fmt] and [path/filepath] used *)
Module Text.

Definition nl : ascii := "010"%char.
Definition dq : ascii := "034"%char.
Definition nul : ascii := "000"%char.
Definition slash : ascii := "/"%char.
Definition colon : ascii := ":"%char.

Definition str (c : ascii) : string := String c EmptyString.

(** [strings.Repeat(string(c), n)] *)
Fixpoint rep (n : nat) (c : ascii) : string :=
  match n with
  | O => ""
  | S k => String c (rep k c)
  end.

(** [strings.TrimLeft(s, string(c))]: drop every leading [c]. *)
Fixpoint TrimLeft (c : ascii) (s : string) : string :=
  match s with
  | EmptyString => ""
  | String a s' => if Ascii.eqb a c then TrimLeft c s' else s
  end.

(** [strings.TrimRight(s, string(c))]: drop every trailing [c]. *)
Fixpoint TrimRight (c : ascii) (s : string) : string :=
  match s with
  | EmptyString => ""
  | String a s' =>
      match TrimRight c s' with
      | EmptyString => if Ascii.eqb a c then "" else str a
      | t => String a t
      end
  end.

(** [strings.Trim(s, cutset)] for a one-byte cutset: both ends, every
    occurrence. *)
Definition Trim (c : ascii) (s : string) : string := TrimLeft c (TrimRight c s).

(** Whether [c] occurs in [s] ([strings.IndexByte(s, c) >= 0]). *)
Fixpoint contains (c : ascii) (s : string) : bool :=
  match s with
  | EmptyString => false
  | String a s' => Ascii.eqb a c || contains c s'
  end.

(** The text after the last [c] of [s] (all of [s] when there is none):
    the loop [for i >= 0 && !IsPathSeparator(path[i]) { i-- }] of
    [filepath.Base]. *)
Fixpoint afterLast (c : ascii) (s : string) : string :=
  match s with
  | EmptyString => ""
  | String a s' =>
      if contains c s' then afterLast c s'
      else if Ascii.eqb a c then s' else s
  end.

(** [filepath.Base] on a Unix path. *)
Definition Base (path : string) : string :=
  match path with
  | EmptyString => "."
  | _ =>
      match afterLast slash (TrimRight slash path) with
      | EmptyString => "/"
      | e => e
      end
  end.

(** [%d] of a signed integer. *)
Definition fmt_d (z : Z) : string := NilZero.string_of_int (Z.to_int z).

(** [%o] of an unsigned integer. *)
Definition fmt_o (n : N) : string :=
  match n with
  | N0 => "0"
  | Npos p => OctalString.Raw.of_pos p ""
  end.

(** Zero padding on the left up to [width] bytes (the [0] flag of [fmt]). *)
Definition pad0 (width : nat) (s : string) : string :=
  rep (width - String.length s) "0"%char +:+ s.

(** [%04o] *)
Definition fmt_04o (n : N) : string := pad0 4 (fmt_o n).

End Text.

(** ** Regexp: the one pattern of the package, as [regexp] runs it

    [sudopattern] is [\[sudo\] password for [^:]+: ].  The pattern and the
    bytes it tests ([:], space, the literal text) are ASCII, so matching on
    bytes and on UTF-8 runes agree; a negated class matches a newline (Go
    compiles with the Perl flags, which include [ClassNL]). *)
Module Regexp.
Import Text.

(** The rest of [s] after the literal [lit], when [s] starts with it. *)
Fixpoint stripPrefix (lit s : string) : option string :=
  match lit with
  | EmptyString => Some s
  | String a lit' =>
      match s with
      | EmptyString => None
      | String b s' => if Ascii.eqb a b then stripPrefix lit' s' else None
      end
  end.

(** [[^:]*], greedy: what is left of [s] from its first colon on. *)
Fixpoint dropRun (s : string) : string :=
  match s with
  | EmptyString => ""
  | String a s' => if Ascii.eqb a colon then s else dropRun s'
  end.

Definition promptLit : string := "[sudo] password for ".
Definition promptEnd : string := ": ".

(** A match of [sudopattern] anchored at the start of [s]: the text that
    follows the match.  After the literal, [[^:]+] takes one byte that is
    not a colon and then every byte up to the next colon; a shorter run
    cannot be followed by a colon, so no other match starts here. *)
Definition matchAt (s : string) : option string :=
  match stripPrefix promptLit s with
  | Some (String a r) =>
      if Ascii.eqb a colon then None else stripPrefix promptEnd (dropRun r)
  | _ => None
  end.

(** Number of bytes of the match anchored at the start of [s]. *)
Definition matchLen (s : string) : option nat :=
  match matchAt s with
  | Some rest => Some (String.length s - String.length rest)%nat
  | None => None
  end.

(** The scan of [Regexp.ReplaceAllString]: left to right, each match found
    is replaced and the scan resumes after it ([skip] counts the bytes of
    the current match still to pass over); a byte where no match starts is
    copied.  [repl] holds no [$], so it is inserted as it is. *)
Fixpoint replaceFrom (repl : string) (skip : nat) (s : string) : string :=
  match s with
  | EmptyString => ""
  | String a s' =>
      match skip with
      | S k => replaceFrom repl k s'
      | O =>
          match matchLen s with
          | Some (S k) => repl +:+ replaceFrom repl k s'
          | _ => String a (replaceFrom repl 0 s')
          end
      end
  end.

Definition ReplaceAllString (src repl : string) : string := replaceFrom repl 0 src.

(** Number of matches the same scan finds. *)
Fixpoint countFrom (skip : nat) (s : string) : nat :=
  match s with
  | EmptyString => O
  | String a s' =>
      match skip with
      | S k => countFrom k s'
      | O =>
          match matchLen s with
          | Some (S k) => S (countFrom k s')
          | _ => countFrom 0 s'
          end
      end
  end.

Definition countMatches (s : string) : nat := countFrom 0 s.

(** The language of the pattern: the prompt for a name [u], where a name
    is what [[^:]+] takes, one byte or more and no colon. *)
Definition prompt (u : string) : string := promptLit +:+ u +:+ promptEnd.

Definition isName (u : string) : bool :=
  negb (String.eqb u "") && negb (contains colon u).

Fixpoint prompts (us : list string) : string :=
  match us with
  | [] => ""
  | u :: us' => prompt u +:+ prompts us'
  end.

End Regexp.

(** ** Errors: Go [error] values as the package meets them *)
Module Err.

Inductive error : Type :=
  | ExitError (status : Z) (msg : string)  (* *ssh.ExitError, Waitmsg.ExitStatus() *)
  | ExitMissingError (msg : string)        (* *ssh.ExitMissingError *)
  | errorString (msg : string)             (* any other error value *)
  | withMessage (cause : error) (msg : string).  (* errors.Wrap / errors.Wrapf *)

(** [err.Error()] *)
Fixpoint Error (e : error) : string :=
  match e with
  | ExitError _ msg => msg
  | ExitMissingError msg => msg
  | errorString msg => msg
  | withMessage cause msg => msg +:+ ": " +:+ Error cause
  end.

(** [errors.Wrap(err, msg)]; [errors.Wrapf] after formatting. *)
Definition Wrap (err : error) (msg : string) : error := withMessage err msg.

(** How a remote command ends: with an exit status, or with none sent. *)
Inductive Exit : Type :=
  | Exited (status : Z)
  | Vanished.

(** The error of [Session.Wait] for each end, as [x/crypto/ssh] documents
    it: nil for exit status zero, an [ExitError] with the status otherwise,
    an [ExitMissingError] when the server sent no status. *)
Definition waitError (x : Exit) : option error :=
  match x with
  | Exited 0 => None
  | Exited status => Some (ExitError status ("Process exited with status " +:+ Text.fmt_d status))
  | Vanished =>
      Some (ExitMissingError "wait: remote command exited without exit status or exit signal")
  end.

End Err.

(** ** Gossh: what [rmt] uses of the parent package *)
Module Gossh.

(** Modelled from the spec: [gossh.Response], declared outside the files at
    hand; the result of one command execution is its standard-output text,
    its standard-error text and an integer exit status (the fields [run]
    assigns). *)
Record Response : Type := mkResponse {
  Stdout : string;
  Stderr : string;
  ExitStatus : Z;
}.

(** A text as its characters (Unicode code points). *)
Definition rune : Type := N.

Definition space : rune := 32%N.

(** U+2502, the vertical bar of the tree rendering *)
Definition bar : rune := 9474%N.

Definition indentUnit : list rune := [space; bar].

(** Modelled from the spec: the tree-indent function [nSpaces], whose body
    is outside the files at hand (only its test, [TestNSpaces], is here);
    for [n <= 0] the empty string, for [n > 0] the two-character unit
    (space, vertical bar) repeated [n/2] times, followed by a single
    trailing space when [n] is odd. *)
Definition nSpaces (n : Z) : list rune :=
  if n <=? 0 then []
  else concat (repeat indentUnit (Z.to_nat (n / 2)))
       ++ (if Z.odd n then [space] else []).

(** UTF-8, the encoding of Go string literals, to compare with the table
    of [TestNSpaces]. *)
Definition utf8_rune (r : rune) : string :=
  let b (n : N) := String (ascii_of_N n) EmptyString in
  if (r <? 128)%N then b r
  else if (r <? 2048)%N then
    b (192 + r / 64)%N +:+ b (128 + r mod 64)%N
  else if (r <? 65536)%N then
    b (224 + r / 4096)%N +:+ b (128 + (r / 64) mod 64)%N +:+ b (128 + r mod 64)%N
  else
    b (240 + r / 262144)%N +:+ b (128 + (r / 4096) mod 64)%N
      +:+ b (128 + (r / 64) mod 64)%N +:+ b (128 + r mod 64)%N.

Fixpoint utf8 (t : list rune) : string :=
  match t with
  | [] => ""
  | r :: t' => utf8_rune r +:+ utf8 t'
  end.

(** The table of [TestNSpaces]. *)
Definition nSpaces_tests : list (Z * string) :=
  [(-9, ""); (-2, ""); (-1, ""); (0, ""); (1, " "); (2, " │"); (9, " │ │ │ │ ")].

End Gossh.

(** ** The escalation contract, as the specification words it *)
Module Escalation.
Import Text.

(** The canonical superuser name. *)
Definition superuser : string := "root".

(** An empty identity, or the placeholder, stands for the superuser. *)
Definition resolve (identity : string) : string :=
  if String.eqb identity "" then superuser
  else if String.eqb identity "-" then superuser
  else identity.

(** The invocation shape: sudo, no cached credentials, the secret from
    standard input, the identity, and the command for a shell between
    double quotes. *)
Definition invocation (identity command : string) : string :=
  "sudo -k -S -u " +:+ identity +:+ " bash -c " +:+ str dq +:+ command +:+ str dq.

(** The stdin contract: the secret line, then the caller's stdin, each
    ended by a newline. *)
Definition stdinContract (secret stdin : string) : string :=
  (secret +:+ str nl) +:+ (stdin +:+ str nl).

End Escalation.

(** ** Rmt: the [Remote] target *)
Module Rmt.
Import Text Err Gossh.

(** Pointers and maps are references into the world below. *)
Definition ConnRef : Type := nat.    (* *ssh.Client *)
Definition ClientRef : Type := nat.  (* *sftp.Client *)
Definition MapRef : Type := nat.     (* map[string]*sftp.Client *)

Record Remote : Type := mkRemote {
  addr : string;
  conn : ConnRef;
  connuser : string;
  sudopass : string;
  activeuser : string;
  sftp : MapRef;
}.

(** How an sftp client was started: [sftp.NewClient(conn)] or
    [suftp.NewSudoClient(conn, user, sudopass)]. *)
Inductive ClientKind : Type :=
  | DirectClient (c : ConnRef)
  | SudoClient (c : ConnRef) (user pass : string).

(** What the target does to the outside, in order. *)
Inductive Event : Type :=
  | EvNewSession (c : ConnRef)
  | EvRun (cmd stdin : string)             (* session.Run(cmd), Stdin bound *)
  | EvCombinedOutput (cmd stdin : string)  (* session.CombinedOutput(cmd) and the bytes its stdin got *)
  | EvSessionClose
  | EvNewClient (k : ClientKind) (c : ClientRef)
  | EvClientClose (c : ClientRef)
  | EvMkdir (c : ClientRef) (path : string)
  | EvConnClose (c : ConnRef).

(** The heap of sftp caches (a Go map is a reference: copies of a [Remote]
    share it), the next unused client reference and the trace. *)
Record World : Type := mkWorld {
  caches : gmap MapRef (gmap string ClientRef);
  fresh : ClientRef;
  log : list Event;
}.

(** The writing end of a session's stdin: the bytes delivered so far, and
    how many more the pipe takes before it breaks ([None]: no limit). *)
Record Pipe : Type := mkPipe {
  delivered : string;
  room : option nat;
}.

(** What [session.Run] leaves behind: the two captured buffers and its
    error. *)
Record RunResult : Type := mkRunResult {
  out : string;
  err : string;
  failure : option error;
}.

(** The far side and the libraries, as the code observes them. *)
Record Net : Type := mkNet {
  newSession : ConnRef -> option error;           (* conn.NewSession() *)
  sessionRun : string -> string -> RunResult;     (* session.Run(cmd) on a given stdin *)
  stdinPipe : option Pipe;                        (* session.StdinPipe(): no pipe once the session has started *)
  combinedOutput : string -> string -> string * option error;
  newClient : ClientKind -> option error;         (* sftp.NewClient / suftp.NewSudoClient *)
  clientClose : ClientRef -> option error;        (* c.Close() *)
  clientMkdir : ClientRef -> string -> option error;
  connClose : ConnRef -> option error;            (* conn.Close() *)
}.

(** Computations over the world; [None] is a run-time panic. *)
Definition M (A : Type) : Type := World -> option (A * World).

#[global] Instance M_ret : MRet M := fun A a w => Some (a, w).

#[global] Instance M_bind : MBind M := fun A B f m w =>
  match m w with
  | Some (a, w') => f a w'
  | None => None
  end.

Definition panic {A : Type} : M A := fun _ => None.

Definition emit (e : Event) : M unit := fun w =>
  Some (tt, mkWorld (caches w) (fresh w) (log w ++ [e])).

(** [m[k]] on the map behind [h]; a nil map reads as empty. *)
Definition mapGet (h : MapRef) (k : string) : M (option ClientRef) := fun w =>
  Some (default ∅ (caches w !! h) !! k, w).

(** [m[k] = c]; assignment to an entry of a nil map panics. *)
Definition mapSet (h : MapRef) (k : string) (c : ClientRef) : M unit := fun w =>
  match caches w !! h with
  | Some m => Some (tt, mkWorld (<[h := <[k := c]> m]> (caches w)) (fresh w) (log w))
  | None => None
  end.

(** The values of the map behind [h], in the order [range] visits them
    (Go leaves the order open; here it is the order of [map_to_list]). *)
Definition mapValues (h : MapRef) : M (list ClientRef) := fun w =>
  Some ((map_to_list (default ∅ (caches w !! h))).*2, w).

(** [w.Write(b)] *)
Definition Write (p : Pipe) (b : string) : Pipe * option error :=
  match room p with
  | None => (mkPipe (delivered p +:+ b) None, None)
  | Some k =>
      if (String.length b <=? k)%nat
      then (mkPipe (delivered p +:+ b) (Some (k - String.length b)%nat), None)
      else (mkPipe (delivered p +:+ substring 0 k b) (Some O),
            Some (errorString "io: read/write on closed pipe"))
  end.

(** [sudopattern.ReplaceAllString(src, repl)] for the package's pattern *)
Definition sudopattern_ReplaceAllString (src repl : string) : string :=
  Regexp.ReplaceAllString src repl.

(** [func scrubStd(in string) string] *)
Definition scrubStd (s : string) : string :=
  sudopattern_ReplaceAllString (Trim nl s) "".

Section WithNet.
Variable net : Net.

Definition NewSession (c : ConnRef) : M (option error) :=
  emit (EvNewSession c) ;; mret (newSession net c).

Definition SessionRun (cmd stdin : string) : M RunResult :=
  emit (EvRun cmd stdin) ;; mret (sessionRun net cmd stdin).

Definition CombinedOutput (cmd stdin : string) : M (string * option error) :=
  emit (EvCombinedOutput cmd stdin) ;; mret (combinedOutput net cmd stdin).

Definition SessionClose : M unit := emit EvSessionClose.

(** Starting an sftp client: on success a new reference, and the event. *)
Definition NewClient (k : ClientKind) : M (ClientRef + error) := fun w =>
  match newClient net k with
  | Some e => Some (inr e, w)
  | None =>
      Some (inl (fresh w),
            mkWorld (caches w) (S (fresh w)) (log w ++ [EvNewClient k (fresh w)]))
  end.

Definition ClientClose (c : ClientRef) : M (option error) :=
  emit (EvClientClose c) ;; mret (clientClose net c).

Definition ClientMkdir (c : ClientRef) (path : string) : M (option error) :=
  emit (EvMkdir c path) ;; mret (clientMkdir net c path).

Definition ConnClose (c : ConnRef) : M (option error) :=
  emit (EvConnClose c) ;; mret (connClose net c).

(** [for _, c := range r.sftp { c.Close() }]: each result is dropped. *)
Fixpoint closeEach (cs : list ClientRef) : M unit :=
  match cs with
  | [] => mret tt
  | c :: cs' => _ ← ClientClose c; closeEach cs'
  end.

(** [func (r Remote) Close() error] *)
Definition Close (r : Remote) : M (option error) :=
  cs ← mapValues (sftp r);
  closeEach cs ;;
  ConnClose (conn r).

(** [func (r Remote) sudo() bool] *)
Definition sudo (r : Remote) : bool := negb (String.eqb (activeuser r) (connuser r)).

(** [func (r Remote) sftpClient() ( *sftp.Client, error)] *)
Definition sftpClient (r : Remote) : M (ClientRef + error) :=
  c ← mapGet (sftp r) (activeuser r);
  match c with
  | Some c => mret (inl c)
  | None =>
      res ← (if sudo r
             then NewClient (SudoClient (conn r) (activeuser r) (sudopass r))
             else NewClient (DirectClient (conn r)));
      match res with
      | inr e =>
          mret (inr (Wrap e ("could not start sftp connection for " +:+ activeuser r)))
      | inl c => mapSet (sftp r) (activeuser r) c ;; mret (inl c)
      end
  end.

(** [func (r Remote) As(user string) Remote]: the receiver is a value, so
    the assignment is to the callee's copy, which is returned. *)
Definition As (r : Remote) (user : string) : Remote :=
  mkRemote (addr r) (conn r) (connuser r) (sudopass r) user (sftp r).

(** [func (r Remote) Mkdir(path string) error] *)
Definition Mkdir (r : Remote) (path : string) : M (option error) :=
  res ← sftpClient r;
  match res with
  | inr e => mret (Some e)
  | inl c => ClientMkdir c path
  end.

(** [func (r Remote) User() string] *)
Definition User (r : Remote) : string := activeuser r.

(** [func (r *Remote) String() string] *)
Definition String_ (r : Remote) : string := connuser r +:+ "@" +:+ addr r.

(** The goroutine of [put]: the header, the content, the end marker, each
    written to the session's stdin pipe with its error dropped.  Without a
    pipe [w] is nil and [defer w.Close()] panics.  Returns the bytes the
    pipe took. *)
Definition putWriter (content : string) (size : Z) (path : string) (mode : N) : M string :=
  match stdinPipe net with
  | None => panic
  | Some w =>
      let '(w, _) := Write w ("C" +:+ fmt_04o mode +:+ " " +:+ fmt_d size +:+ " "
                               +:+ Base path +:+ str nl) in
      let '(w, _) := Write w content in
      let '(w, _) := Write w (str nul) in
      mret (delivered w)
  end.

(** [func (r *Remote) put(content io.Reader, size int64, path string, mode uint32) error];
    the goroutine's writes are what the remote command reads. *)
Definition put (r : Remote) (content : string) (size : Z) (path : string) (mode : N)
  : M (option error) :=
  e ← NewSession (conn r);
  match e with
  | Some e => mret (Some (Wrap e "failed to create scp session"))
  | None =>
      stdin ← putWriter content size path mode;
      '(b, e) ← CombinedOutput ("/usr/bin/scp -tr " +:+ path) stdin;
      SessionClose ;;
      match e with
      | Some e => mret (Some (Wrap e ("unable to copy content: " +:+ b)))
      | None => mret None
      end
  end.

(** [func (r *Remote) run(cmd string, stdin string, sudo bool, user string) (gossh.Response, error)] *)
Definition run (r : Remote) (cmd stdin : string) (sudo : bool) (user : string)
  : M (Response * option error) :=
  e ← NewSession (conn r);
  match e with
  | Some e => mret (mkResponse "" "" 0, Some (Wrap e "unable to create new session"))
  | None =>
      res ← (if sudo then
               let user := if String.eqb user "" || String.eqb user "-"
                           then "root" else user in
               let sudocmd := "sudo -k -S -u " +:+ user +:+ " bash -c " +:+ str dq
                              +:+ cmd +:+ str dq in
               SessionRun sudocmd (sudopass r +:+ str nl +:+ stdin +:+ str nl)
             else
               SessionRun cmd (stdin +:+ str nl));
      let o := scrubStd (out res) in
      let e := scrubStd (err res) in
      SessionClose ;;
      match failure res with
      | Some (ExitError status _) => mret (mkResponse o e status, None)
      | Some (ExitMissingError _) => mret (mkResponse o e (-1), None)
      | Some t => mret (mkResponse o e 0, Some (Wrap t "run of command failed"))
      | None => mret (mkResponse o e 0, None)
      end
  end.

End WithNet.

End Rmt.

(** ** The scrub as the specification words it

    The reading of the scrub that removes exactly one occurrence of the
    prompt and exactly one newline at each end, to compare with [scrubStd];
    in either order of the two steps. *)
Module ScrubAsStated.
Import Text.

(** One leading [c], when there is one. *)
Definition dropOneLeading (c : ascii) (s : string) : string :=
  match s with
  | EmptyString => ""
  | String a s' => if Ascii.eqb a c then s' else s
  end.

(** One trailing [c], when there is one. *)
Fixpoint dropOneTrailing (c : ascii) (s : string) : string :=
  match s with
  | EmptyString => ""
  | String a EmptyString => if Ascii.eqb a c then "" else s
  | String a s' => String a (dropOneTrailing c s')
  end.

Definition stripOnePair (s : string) : string :=
  dropOneLeading nl (dropOneTrailing nl s).

(** The first occurrence of the prompt, and no other. *)
Fixpoint removeFirst (s : string) : string :=
  match s with
  | EmptyString => ""
  | String a s' =>
      match Regexp.matchAt s with
      | Some rest => rest
      | None => String a (removeFirst s')
      end
  end.

Definition scrubOnce (s : string) : string := removeFirst (stripOnePair s).

Definition scrubOnce' (s : string) : string := stripOnePair (removeFirst s).

(** Two newlines, the prompts for [a] and for [b], [x], two newlines. *)
Definition twice : string :=
  rep 2 nl +:+ Regexp.prompt "a" +:+ Regexp.prompt "b" +:+ "x" +:+ rep 2 nl.

End ScrubAsStated.

(** ** Scp: the push wire format *)
Module Scp.
Import Text Rmt.

(** The header line: [C], the mode in octal on four digits, the byte
    length, the base name, a newline. *)
Definition header (mode : N) (size : Z) (path : string) : string :=
  "C" +:+ fmt_04o mode +:+ " " +:+ fmt_d size +:+ " " +:+ Base path +:+ str nl.

(** What the pipe [p] has taken after the three writes of the goroutine of
    [put], each error dropped. *)
Definition taken (p : Pipe) (content : string) (size : Z) (path : string) (mode : N)
  : string :=
  delivered (Write (Write (Write p (header mode size path)).1 content).1 (str nul)).1.

End Scp.

(** ** Sessions: the sftp clients a trace opened, and a driver *)
Module Sessions.
Import Text Err Rmt.

(** The identity a client of kind [k] acts as, on a connection of
    [connuser]. *)
Definition identityOf (connuser : string) (k : ClientKind) : string :=
  match k with
  | DirectClient _ => connuser
  | SudoClient _ user _ => user
  end.

(** The clients the trace opened for identity [u]. *)
Fixpoint opened (connuser u : string) (l : list Event) : list ClientRef :=
  match l with
  | [] => []
  | EvNewClient k c :: l' =>
      if String.eqb (identityOf connuser k) u
      then c :: opened connuser u l' else opened connuser u l'
  | _ :: l' => opened connuser u l'
  end.

(** The kind of client [sftpClient] starts for [r]. *)
Definition kindFor (r : Remote) : ClientKind :=
  if String.eqb (activeuser r) (connuser r)
  then DirectClient (conn r)
  else SudoClient (conn r) (activeuser r) (sudopass r).

(** What a caller may do with a target, acting as any identity. *)
Inductive Op : Type :=
  | OpSftp (user : string)
  | OpMkdir (user path : string)
  | OpClose.

Definition perform (net : Net) (r : Remote) (op : Op) : M unit :=
  match op with
  | OpSftp user => _ ← sftpClient net (As r user); mret tt
  | OpMkdir user path => _ ← Mkdir net (As r user) path; mret tt
  | OpClose => _ ← Close net r; mret tt
  end.

Fixpoint performAll (net : Net) (r : Remote) (ops : list Op) : M unit :=
  match ops with
  | [] => mret tt
  | op :: ops' => perform net r op ;; performAll net r ops'
  end.

(** The cache of [r] exists and holds, for each identity, exactly the
    clients the trace opened for it. *)
Definition consistent (r : Remote) (w : World) : Prop :=
  exists m : gmap string ClientRef,
    caches w !! sftp r = Some m
    /\ forall u : string,
         opened (connuser r) u (log w) =
         match m !! u with Some c => [c] | None => [] end.

End Sessions.

(** ** How a shell reads the invocation *)
Module Shell.
Import Text.

Definition backslash : ascii := "092"%char.

(** The text of a double-quoted word, read from just after its opening
    quote: it ends at the first double quote that no backslash precedes
    (a backslash takes the next byte with it). *)
Fixpoint quotedWord (s : string) : string :=
  match s with
  | EmptyString => ""
  | String a s' =>
      if Ascii.eqb a dq then ""
      else if Ascii.eqb a backslash then
        match s' with
        | EmptyString => str a
        | String b s'' => String a (String b (quotedWord s''))
        end
      else String a (quotedWord s')
  end.

(** Occurrences of a byte. *)
Fixpoint count (c : ascii) (s : string) : nat :=
  match s with
  | EmptyString => O
  | String a s' => ((if Ascii.eqb a c then 1 else 0) + count c s')%nat
  end.

End Shell.

(** ** A concrete target and far sides, for examples *)
Module Fixture.
Import Text Err Gossh Rmt.

(** The target of [examples/random/main.go]: user gossh at localhost:2222. *)
Definition host : Remote := mkRemote "localhost:2222" 1%nat "gossh" "gosshpwd" "gossh" 1%nat.

(** A world where the host's cache exists and is empty, as [New] leaves it. *)
Definition w0 : World := mkWorld {[ 1%nat := ∅ ]} 0%nat [].

(** A world where the host's cache holds one client, for gossh. *)
Definition w1 : World :=
  mkWorld {[ 1%nat := {[ "gossh" := 0%nat ]} ]} 1%nat [EvNewClient (DirectClient 1%nat) 0%nat].

(** A far side where every call succeeds, commands print [o] and end with
    [x], and the stdin pipe takes [room] bytes. *)
Definition far (o : string) (x : option error) (room : option nat) : Net :=
  mkNet (fun _ => None) (fun _ _ => mkRunResult o "" x) (Some (mkPipe "" room))
        (fun _ _ => (o, x)) (fun _ => None) (fun _ => None) (fun _ _ => None)
        (fun _ => None).

Definition quiet : Net := far "" None None.

(** As [quiet], but closing an sftp client fails. *)
Definition lossy : Net :=
  mkNet (fun _ => None) (fun _ _ => mkRunResult "" "" None) (Some (mkPipe "" None))
        (fun _ _ => ("", None)) (fun _ => None)
        (fun _ => Some (errorString "connection lost")) (fun _ _ => None)
        (fun _ => None).

End Fixture.

(** ** The scan, as the amended scrub words it *)
Module ScanSpec.
Import Text Regexp.

(** [Removed s out]: [out] is [s] with every occurrence of the prompt
    that one scan from the left finds taken out.  Where the text starts
    with the prompt for some name, the prompt goes and the scan resumes
    after it; where it does not, the byte stays and the scan resumes at
    the next byte. *)
Inductive Removed : string -> string -> Prop :=
  | Removed_nil : Removed "" ""
  | Removed_prompt (u rest out : string) :
      isName u = true -> Removed rest out -> Removed (prompt u +:+ rest) out
  | Removed_byte (a : ascii) (s out : string) :
      (forall u rest : string, isName u = true -> String a s <> prompt u +:+ rest) ->
      Removed s out -> Removed (String a s) (String a out).

End ScanSpec.

(** ** Cache shape: what callers can rely on *)
Module CacheShape.
Import Rmt.

(** No identity's client is another's, and every cached client is one
    that was handed out before [bound]. *)
Definition apart (m : gmap string ClientRef) (bound : ClientRef) : Prop :=
  (forall (u : string) (c : ClientRef), m !! u = Some c -> (c < bound)%nat)
  /\ (forall (u u' : string) (c : ClientRef),
        m !! u = Some c -> m !! u' = Some c -> u = u').

End CacheShape.

(** ** How sudo reads the secret *)
Module Sudo.
Import Text.

(** [sudo -S] reads the password from standard input up to the first
    newline; the command it starts reads what follows.  [readLine s] is
    that line and the rest. *)
Fixpoint readLine (s : string) : string * string :=
  match s with
  | EmptyString => ("", "")
  | String a s' =>
      if Ascii.eqb a nl then ("", s')
      else let '(l, rest) := readLine s' in (String a l, rest)
  end.

End Sudo.

(** ** Construct: [New] and [AgentAuths] *)
Module Construct.
Import Text Err Rmt.

(** A connection to the ssh agent's socket. *)
Definition AgentConn : Type := nat.

(** The [ssh.AuthMethod] values the package and its callers build. *)
Inductive AuthMethod : Type :=
  | Password (secret : string)               (* ssh.Password(secret) *)
  | PublicKeys (signers : list string)       (* ssh.PublicKeys(signers...) *)
  | PublicKeysCallback (agent : AgentConn).  (* ssh.PublicKeysCallback(agentClient.Signers) *)

Inductive HostKeyCallback : Type :=
  | InsecureIgnoreHostKey
  | FixedHostKey (key : string).

(** [ssh.ClientConfig], the fields [New] sets. *)
Record ClientConfig : Type := mkClientConfig {
  cfgUser : string;
  cfgAuth : list AuthMethod;
  cfgHostKeyCallback : HostKeyCallback;
}.

(** The nil [*ssh.Client], which a target keeps when the dial failed.  A
    method called through it panics in Go ([r.conn.NewSession()],
    [sftp.NewClient(r.conn)], [r.conn.Close()]); the operations of [Rmt]
    are those of a target that holds a connection, and what is stated of
    their returning is stated for a connection other than this one. *)
Definition nilConn : ConnRef := 0%nat.

(** [map[string]*sftp.Client{}]: a map that no other value refers to. *)
Definition newMap (w : World) : MapRef := stdpp.base.fresh (dom (caches w)).

(** [func New(addr string, user string, sudopass string,
    hostkeycallback ssh.HostKeyCallback, auths ...ssh.AuthMethod) (Remote, error)];
    [dial] is [ssh.Dial] (network, address, configuration). *)
Definition New (dial : string -> string -> ClientConfig -> ConnRef + error)
    (addr user sudopass : string) (hostkeycallback : HostKeyCallback)
    (auths : list AuthMethod) : M (Remote * option error) := fun w =>
  let h := newMap w in
  let w := mkWorld (<[h := ∅]> (caches w)) (Rmt.fresh w) (log w) in
  let r := mkRemote addr nilConn user sudopass user h in
  let cc := mkClientConfig user auths hostkeycallback in
  match dial "tcp" addr cc with
  | inr e =>
      Some ((r, Some (Wrap e ("unable to establish ssh connection to " +:+ addr))), w)
  | inl c => Some ((mkRemote addr c user sudopass user h, None), w)
  end.

(** The process environment and the agent's socket, as [AgentAuths] sees
    them. *)
Record AgentEnv : Type := mkAgentEnv {
  getenv : string -> string;           (* os.Getenv *)
  dialUnix : string -> option error;   (* net.Dial("unix", path): its error *)
}.

(** The connections to the agent: the next unused one and the open ones. *)
Record Sockets : Type := mkSockets {
  nextSock : AgentConn;
  openSocks : list AgentConn;
}.

(** [func AgentAuths() ssh.AuthMethod]: the deferred [conn.Close()] runs
    when the function returns, after the callback was built. *)
Definition AgentAuths (env : AgentEnv) (s : Sockets) : AuthMethod * Sockets :=
  let socket := getenv env "SSH_AUTH_SOCK" in
  match dialUnix env socket with
  | Some _ => (PublicKeys [], s)
  | None =>
      let conn := nextSock s in
      let s := mkSockets (S conn) (conn :: openSocks s) in
      let agentClient := conn in
      let result := PublicKeysCallback agentClient in
      (result, mkSockets (nextSock s) (remove Nat.eq_dec conn (openSocks s)))
  end.

End Construct.

(** * Facts *)

(** ** Strings *)
Module TextFacts.
Import Text.

Lemma sapp_nil_l (s : string) : "" +:+ s = s.
Proof. reflexivity. Qed.

Lemma sapp_cons (c : ascii) (s t : string) : String c s +:+ t = String c (s +:+ t).
Proof. reflexivity. Qed.

Lemma sapp_nil_r (s : string) : s +:+ "" = s.
Proof. induction s as [|c s IH]; [reflexivity|]. rewrite sapp_cons, IH. reflexivity. Qed.

Lemma sapp_assoc (s t u : string) : (s +:+ t) +:+ u = s +:+ (t +:+ u).
Proof.
  induction s as [|c s IH]; [reflexivity|].
  rewrite !sapp_cons, IH. reflexivity.
Qed.

Lemma slength_app (s t : string) :
  String.length (s +:+ t) = (String.length s + String.length t)%nat.
Proof.
  induction s as [|c s IH]; [reflexivity|].
  rewrite sapp_cons. simpl. rewrite IH. reflexivity.
Qed.

Lemma sapp_eq_nil (s t : string) : s +:+ t = "" -> s = "" /\ t = "".
Proof. destruct s; [rewrite sapp_nil_l; auto | rewrite sapp_cons; discriminate]. Qed.

Lemma str_app (c : ascii) (s : string) : str c +:+ s = String c s.
Proof. reflexivity. Qed.

(** *** [TrimLeft], [TrimRight], [Trim] *)

Lemma TrimLeft_rep (c : ascii) (n : nat) (s : string) :
  TrimLeft c (rep n c +:+ s) = TrimLeft c s.
Proof.
  induction n as [|n IH]; [reflexivity|].
  simpl rep. rewrite sapp_cons. simpl. rewrite Ascii.eqb_refl. exact IH.
Qed.

Lemma TrimRight_cons (c a : ascii) (s : string) :
  TrimRight c (String a s) =
  match TrimRight c s with
  | EmptyString => if Ascii.eqb a c then "" else str a
  | t => String a t
  end.
Proof. reflexivity. Qed.

Lemma TrimRight_rep_only (c : ascii) (n : nat) : TrimRight c (rep n c) = "".
Proof.
  induction n as [|n IH]; [reflexivity|].
  simpl rep. rewrite TrimRight_cons, IH, Ascii.eqb_refl. reflexivity.
Qed.

Lemma TrimRight_rep (c : ascii) (n : nat) (s : string) :
  TrimRight c (s +:+ rep n c) = TrimRight c s.
Proof.
  induction s as [|a s IH].
  - rewrite sapp_nil_l. apply TrimRight_rep_only.
  - rewrite sapp_cons, !TrimRight_cons, IH. reflexivity.
Qed.

(** A text that keeps its end under [TrimRight] keeps it behind any prefix. *)
Lemma TrimRight_app_fixed (c : ascii) (s t : string) :
  t <> "" -> TrimRight c t = t -> TrimRight c (s +:+ t) = s +:+ t.
Proof.
  intros Hne Ht. induction s as [|a s IH]; [exact Ht|].
  rewrite sapp_cons, TrimRight_cons, IH.
  destruct (s +:+ t) eqn:E; [|reflexivity].
  apply sapp_eq_nil in E. tauto.
Qed.

Lemma Trim_rep (c : ascii) (a b : nat) (y : string) :
  TrimRight c y = y -> TrimLeft c y = y ->
  Trim c (rep a c +:+ y +:+ rep b c) = y.
Proof.
  intros Hr Hl. unfold Trim.
  rewrite <- sapp_assoc, TrimRight_rep.
  destruct y as [|x y].
  - rewrite sapp_nil_r, TrimRight_rep_only. reflexivity.
  - rewrite TrimRight_app_fixed by (congruence || assumption).
    rewrite TrimLeft_rep. exact Hl.
Qed.

(** What [Trim] returns starts and ends with no [c]: every one is gone. *)
Lemma TrimRight_idem (c : ascii) (s : string) : TrimRight c (TrimRight c s) = TrimRight c s.
Proof.
  induction s as [|a s IH]; [reflexivity|].
  rewrite TrimRight_cons. destruct (TrimRight c s) as [|b t] eqn:E.
  - destruct (Ascii.eqb a c) eqn:Ea; [reflexivity|].
    unfold str. rewrite TrimRight_cons. simpl. rewrite Ea. reflexivity.
  - rewrite TrimRight_cons, IH. reflexivity.
Qed.

Lemma TrimLeft_idem (c : ascii) (s : string) : TrimLeft c (TrimLeft c s) = TrimLeft c s.
Proof.
  induction s as [|a s IH]; [reflexivity|].
  simpl. destruct (Ascii.eqb a c) eqn:Ea; [exact IH|].
  simpl. rewrite Ea. reflexivity.
Qed.

End TextFacts.

Example Base_x : Text.Base "/tmp/dir/x.txt" = "x.txt".
Proof. reflexivity. Qed.

Example Base_trailing : Text.Base "/tmp/dir///" = "dir".
Proof. reflexivity. Qed.

Example Base_root : Text.Base "///" = "/".
Proof. reflexivity. Qed.

Example Base_empty : Text.Base "" = ".".
Proof. reflexivity. Qed.

Example fmt_mode : Text.fmt_04o 420 = "0644".
Proof. reflexivity. Qed.

Example fmt_mode_wide : Text.fmt_04o 33188 = "100644".
Proof. reflexivity. Qed.

Example fmt_neg : Text.fmt_d (-5) = "-5".
Proof. reflexivity. Qed.

Example Trim_both : Text.Trim Text.nl (Text.rep 2 Text.nl +:+ "a" +:+ Text.str Text.nl +:+ "b" +:+ Text.rep 3 Text.nl)
                    = "a" +:+ Text.str Text.nl +:+ "b".
Proof. reflexivity. Qed.

(** ** The pattern and the replacing scan *)
Module RegexpFacts.
Import Text TextFacts Regexp.

Lemma stripPrefix_app (lit s : string) : stripPrefix lit (lit +:+ s) = Some s.
Proof.
  induction lit as [|a lit IH]; [reflexivity|].
  rewrite sapp_cons. simpl. rewrite Ascii.eqb_refl. exact IH.
Qed.

Lemma stripPrefix_Some (lit s r : string) : stripPrefix lit s = Some r -> s = lit +:+ r.
Proof.
  revert s. induction lit as [|a lit IH]; intros s H.
  - simpl in H. injection H as ->. reflexivity.
  - destruct s as [|b s]; [discriminate|]. simpl in H.
    destruct (Ascii.eqb a b) eqn:E; [|discriminate].
    apply Ascii.eqb_eq in E. subst b. rewrite sapp_cons. f_equal. auto.
Qed.

Lemma dropRun_app (v s : string) :
  contains colon v = false -> dropRun (v +:+ String colon s) = String colon s.
Proof.
  induction v as [|a v IH]; intros H.
  - reflexivity.
  - simpl in H. apply orb_false_iff in H as [Ha Hv].
    rewrite sapp_cons. simpl. rewrite Ha. auto.
Qed.

Lemma dropRun_split (s : string) :
  exists v, s = v +:+ dropRun s /\ contains colon v = false.
Proof.
  induction s as [|a s (v & Hs & Hv)].
  - exists "". split; reflexivity.
  - simpl. destruct (Ascii.eqb a colon) eqn:E.
    + exists "". split; reflexivity.
    + exists (String a v). split.
      * rewrite sapp_cons. f_equal. exact Hs.
      * simpl. rewrite E. exact Hv.
Qed.

Lemma isName_cons (u : string) :
  isName u = true ->
  exists a v, u = String a v /\ Ascii.eqb a colon = false /\ contains colon v = false.
Proof.
  unfold isName. intros H. apply andb_true_iff in H as [H1 H2].
  destruct u as [|a v]; [discriminate|].
  apply negb_true_iff in H2. simpl in H2. apply orb_false_iff in H2 as [Ha Hv].
  eauto.
Qed.

(** A prompt at the start of the text is the match there. *)
Lemma matchAt_prompt (u rest : string) :
  isName u = true -> matchAt (prompt u +:+ rest) = Some rest.
Proof.
  intros (a & v & -> & Ha & Hv)%isName_cons.
  unfold matchAt, prompt. rewrite !sapp_assoc, stripPrefix_app, sapp_cons, Ha.
  change (promptEnd +:+ rest) with (String colon (String " " rest)).
  rewrite dropRun_app by exact Hv.
  apply (stripPrefix_app promptEnd).
Qed.

(** And nothing else is: a match at the start is a prompt for some name. *)
Lemma matchAt_inv (s rest : string) :
  matchAt s = Some rest -> exists u, isName u = true /\ s = prompt u +:+ rest.
Proof.
  unfold matchAt. intros H.
  destruct (stripPrefix promptLit s) as [[|a r]|] eqn:E; try discriminate.
  destruct (Ascii.eqb a colon) eqn:Ea; [discriminate|].
  apply stripPrefix_Some in E, H.
  destruct (dropRun_split r) as (v & Hr & Hv).
  exists (String a v). split.
  - unfold isName. simpl. rewrite Ea, Hv. reflexivity.
  - unfold prompt. rewrite E, !sapp_assoc, sapp_cons. do 2 f_equal.
    rewrite Hr at 1. rewrite H. reflexivity.
Qed.

Lemma matchAt_head (a : ascii) (s rest : string) :
  matchAt (String a s) = Some rest -> a = "["%char.
Proof.
  unfold matchAt.
  change (stripPrefix promptLit (String a s))
    with (if Ascii.eqb "[" a then stripPrefix "sudo] password for " s else None).
  destruct (Ascii.eqb "[" a) eqn:E; [|discriminate].
  intros _. apply Ascii.eqb_eq in E. congruence.
Qed.

Lemma matchLen_prompt (u rest : string) :
  isName u = true ->
  matchLen (prompt u +:+ rest) = Some (String.length (prompt u)).
Proof.
  intros H. unfold matchLen. rewrite matchAt_prompt by exact H.
  rewrite slength_app. f_equal. lia.
Qed.

Lemma replaceFrom_skip (repl m x : string) :
  replaceFrom repl (String.length m) (m +:+ x) = replaceFrom repl 0 x.
Proof.
  induction m as [|a m IH]; [reflexivity|].
  rewrite sapp_cons. simpl. exact IH.
Qed.

(** The equations of the scan. *)
Lemma replace_match (s rest repl : string) :
  matchAt s = Some rest ->
  ReplaceAllString s repl = repl +:+ ReplaceAllString rest repl.
Proof.
  intros H. destruct (matchAt_inv _ _ H) as (u & Hu & ->).
  unfold ReplaceAllString.
  assert (Hp : exists m, prompt u = String "[" m) by (eexists; reflexivity).
  destruct Hp as (m & Hm).
  pose proof (matchLen_prompt u rest Hu) as HL.
  rewrite Hm in *. rewrite sapp_cons in *. simpl replaceFrom. rewrite HL.
  simpl String.length. cbv iota beta. rewrite replaceFrom_skip. reflexivity.
Qed.

Lemma replace_nomatch (a : ascii) (s repl : string) :
  matchAt (String a s) = None ->
  ReplaceAllString (String a s) repl = String a (ReplaceAllString s repl).
Proof.
  intros H. unfold ReplaceAllString. simpl. unfold matchLen. rewrite H. reflexivity.
Qed.

Lemma replace_nil (repl : string) : ReplaceAllString "" repl = "".
Proof. reflexivity. Qed.

(** No match starts inside a text without an opening bracket. *)
Lemma replace_nobracket_app (t x repl : string) :
  contains "[" t = false ->
  ReplaceAllString (t +:+ x) repl = t +:+ ReplaceAllString x repl.
Proof.
  induction t as [|a t IH]; intros H; [reflexivity|].
  simpl in H. apply orb_false_iff in H as [Ha Ht].
  assert (Hno : matchAt (String a (t +:+ x)) = None).
  { destruct (matchAt (String a (t +:+ x))) eqn:E; [|reflexivity].
    apply matchAt_head in E. subst a. discriminate. }
  rewrite !sapp_cons, replace_nomatch by exact Hno.
  rewrite IH by exact Ht. reflexivity.
Qed.

Lemma replace_nobracket (t repl : string) :
  contains "[" t = false -> ReplaceAllString t repl = t.
Proof.
  intros H. rewrite <- (sapp_nil_r t) at 1.
  rewrite replace_nobracket_app by exact H. rewrite replace_nil. apply sapp_nil_r.
Qed.

(** Every prompt of a run of prompts goes, whatever the names. *)
Lemma replace_prompts (us : list string) (x : string) :
  forallb isName us = true ->
  ReplaceAllString (prompts us +:+ x) "" = ReplaceAllString x "".
Proof.
  induction us as [|u us IH]; intros H; [reflexivity|].
  simpl in H. apply andb_true_iff in H as [Hu Hus].
  change (prompts (u :: us)) with (prompt u +:+ prompts us). rewrite sapp_assoc.
  rewrite (replace_match _ (prompts us +:+ x)) by (apply matchAt_prompt; exact Hu).
  rewrite sapp_nil_l. auto.
Qed.

End RegexpFacts.

(** ** The scrubber *)
Module ScrubFacts.
Import Text TextFacts Regexp RegexpFacts Rmt.

Lemma TrimLeft_prompt (u x : string) : TrimLeft nl (prompt u +:+ x) = prompt u +:+ x.
Proof. reflexivity. Qed.

Lemma TrimRight_prompt (u : string) : TrimRight nl (prompt u) = prompt u.
Proof.
  unfold prompt. rewrite <- sapp_assoc.
  apply TrimRight_app_fixed; [discriminate | reflexivity].
Qed.

Lemma prompt_not_nil (u : string) : prompt u <> "".
Proof. discriminate. Qed.

Lemma TrimRight_prompts (us : list string) : TrimRight nl (prompts us) = prompts us.
Proof.
  induction us as [|u us IH]; [reflexivity|].
  change (prompts (u :: us)) with (prompt u +:+ prompts us).
  destruct (prompts us) eqn:E.
  - rewrite sapp_nil_r. apply TrimRight_prompt.
  - apply TrimRight_app_fixed; [discriminate | exact IH].
Qed.

Lemma TrimLeft_prompts (us : list string) (t : string) :
  TrimLeft nl t = t -> TrimLeft nl (prompts us +:+ t) = prompts us +:+ t.
Proof.
  destruct us as [|u us]; intros H; [exact H|].
  change (prompts (u :: us)) with (prompt u +:+ prompts us).
  rewrite sapp_assoc. apply TrimLeft_prompt.
Qed.

Lemma TrimRight_prompts_app (us : list string) (t : string) :
  TrimRight nl t = t -> TrimRight nl (prompts us +:+ t) = prompts us +:+ t.
Proof.
  intros H. destruct t as [|a t].
  - rewrite sapp_nil_r. apply TrimRight_prompts.
  - apply TrimRight_app_fixed; [discriminate | exact H].
Qed.

(** A newline that follows a removed prompt stays: the trim ran first. *)
Lemma scrubStd_newline_after_prompt (u t : string) :
  isName u = true -> t <> "" -> TrimRight nl t = t ->
  scrubStd (prompt u +:+ str nl +:+ t) = str nl +:+ ReplaceAllString t "".
Proof.
  intros Hu Hne Ht. unfold scrubStd, sudopattern_ReplaceAllString, Trim.
  rewrite <- !sapp_assoc, TrimRight_app_fixed by assumption.
  rewrite !sapp_assoc, TrimLeft_prompt.
  rewrite (replace_match _ (str nl +:+ t)) by (apply matchAt_prompt; exact Hu).
  rewrite sapp_nil_l, str_app, replace_nomatch by reflexivity.
  reflexivity.
Qed.

(** Newlines at both ends and a run of prompts all go. *)
Lemma scrubStd_prompts_newlines (a b : nat) (us : list string) (t : string) :
  forallb isName us = true ->
  contains "[" t = false ->
  TrimLeft nl t = t -> TrimRight nl t = t ->
  scrubStd (rep a nl +:+ (prompts us +:+ t) +:+ rep b nl) = t.
Proof.
  intros Hus Hb Hl Hr.
  unfold scrubStd, sudopattern_ReplaceAllString.
  rewrite Trim_rep by (apply TrimRight_prompts_app || apply TrimLeft_prompts; assumption).
  rewrite replace_prompts by exact Hus.
  apply replace_nobracket. exact Hb.
Qed.

End ScrubFacts.

(** C5 (as stated) fails: on two newlines, two prompts, [x] and two
    newlines the code removes both prompts and all four newlines, where
    removing exactly one prompt and one newline at each end leaves more,
    in either order of the two steps. *)
Lemma scrubStd_not_exactly_one :
  Rmt.scrubStd ScrubAsStated.twice = "x"
  /\ Regexp.countMatches (Text.Trim Text.nl ScrubAsStated.twice) = 2%nat
  /\ String.length ScrubAsStated.twice = (String.length (Text.Trim Text.nl ScrubAsStated.twice) + 4)%nat
  /\ Rmt.scrubStd ScrubAsStated.twice <> ScrubAsStated.scrubOnce ScrubAsStated.twice
  /\ Rmt.scrubStd ScrubAsStated.twice <> ScrubAsStated.scrubOnce' ScrubAsStated.twice.
Proof. repeat split; try reflexivity; vm_compute; discriminate. Qed.

(** ** [run] *)
Module RunFacts.
Import Text TextFacts Err Gossh Rmt.

Ltac unfold_M :=
  unfold NewSession, SessionRun, SessionClose, CombinedOutput, ClientClose,
    ClientMkdir, ConnClose, emit, panic;
  unfold mbind, M_bind, mret, M_ret.

(** The command and the stdin that [run] hands to the session. *)
Lemma run_invocation (user cmd : string) :
  "sudo -k -S -u " +:+ (if String.eqb user "" || String.eqb user "-" then "root" else user)
     +:+ " bash -c " +:+ str dq +:+ cmd +:+ str dq
  = Escalation.invocation (Escalation.resolve user) cmd.
Proof.
  unfold Escalation.invocation, Escalation.resolve, Escalation.superuser.
  destruct (String.eqb user ""), (String.eqb user "-"); reflexivity.
Qed.

Lemma run_stdin (secret stdin : string) :
  secret +:+ str nl +:+ stdin +:+ str nl = Escalation.stdinContract secret stdin.
Proof. unfold Escalation.stdinContract. rewrite sapp_assoc. reflexivity. Qed.

Section WithNet.
Variable net : Net.

(** With no session, [run] returns the wrapped error and runs nothing. *)
Lemma run_no_session (r : Remote) (cmd stdin : string) (sudo : bool) (user : string)
    (w : World) (e : error) :
  newSession net (conn r) = Some e ->
  run net r cmd stdin sudo user w =
    Some ((mkResponse "" "" 0, Some (Wrap e "unable to create new session")),
          mkWorld (caches w) (fresh w) (log w ++ [EvNewSession (conn r)])).
Proof. intros H. unfold run. unfold_M. simpl. rewrite H. reflexivity. Qed.

(** With a session, [run] runs one command on one stdin, closes the
    session, and builds the response from what the session left. *)
Lemma run_session (r : Remote) (cmd stdin : string) (sudo : bool) (user : string)
    (w : World) :
  newSession net (conn r) = None ->
  let c := if sudo then Escalation.invocation (Escalation.resolve user) cmd else cmd in
  let i := if sudo then Escalation.stdinContract (sudopass r) stdin else stdin +:+ str nl in
  let res := sessionRun net c i in
  let o := scrubStd (out res) in
  let e := scrubStd (err res) in
  run net r cmd stdin sudo user w =
    Some (match failure res with
          | Some (ExitError status _) => (mkResponse o e status, None)
          | Some (ExitMissingError _) => (mkResponse o e (-1), None)
          | Some t => (mkResponse o e 0, Some (Wrap t "run of command failed"))
          | None => (mkResponse o e 0, None)
          end,
          mkWorld (caches w) (fresh w)
            (log w ++ [EvNewSession (conn r); EvRun c i; EvSessionClose])).
Proof.
  intros H. unfold run. unfold_M. simpl. rewrite H.
  rewrite run_invocation, run_stdin.
  destruct sudo; simpl; rewrite <- !List.app_assoc; simpl;
    match goal with |- context [failure ?x] => destruct (failure x) as [[]|] end;
    reflexivity.
Qed.

End WithNet.
End RunFacts.

(** ** The shell's reading of the invocation *)
Module ShellFacts.
Import Text TextFacts Shell.

Lemma count_app (c : ascii) (s t : string) :
  count c (s +:+ t) = (count c s + count c t)%nat.
Proof.
  induction s as [|a s IH]; [reflexivity|].
  rewrite sapp_cons. simpl. rewrite IH. lia.
Qed.

(** A text with no quote and no backslash is read whole, up to the quote
    that follows it. *)
Lemma quotedWord_plain (a b : string) :
  contains dq a = false -> contains backslash a = false ->
  quotedWord (a +:+ String dq b) = a.
Proof.
  induction a as [|x a IH]; intros Hq Hb; [reflexivity|].
  simpl in Hq, Hb. apply orb_false_iff in Hq as [Hx Hq], Hb as [Hy Hb].
  rewrite sapp_cons. simpl. rewrite Hx, Hy, IH by assumption. reflexivity.
Qed.

Lemma shorter_ne (a t : string) : t <> "" -> a <> a +:+ t.
Proof.
  intros Ht E. apply (f_equal String.length) in E. rewrite slength_app in E.
  destruct t; [congruence | simpl in E; lia].
Qed.

End ShellFacts.

(** C1 (as amended): with a session, [run] called for an identity, with the
    flag [sudo] as the target acting as that identity reports it, runs one
    command: when the identity is the connection identity, the command as
    given, on the given stdin followed by a newline; otherwise the
    invocation [sudo -k -S -u <identity> bash -c "<command>"], on the
    secret and the given stdin, each followed by a newline, where an empty
    identity or [-] stands for root. *)
Theorem run_by_identity (net : Rmt.Net) (r : Rmt.Remote) (cmd stdin user : string)
    (w : Rmt.World) :
  Rmt.newSession net (Rmt.conn r) = None ->
  Rmt.log <$> (snd <$> Rmt.run net r cmd stdin (Rmt.sudo (Rmt.As r user)) user w) =
    Some (Rmt.log w ++
          [Rmt.EvNewSession (Rmt.conn r);
           (if String.eqb user (Rmt.connuser r)
            then Rmt.EvRun cmd (stdin +:+ Text.str Text.nl)
            else Rmt.EvRun (Escalation.invocation (Escalation.resolve user) cmd)
                           (Escalation.stdinContract (Rmt.sudopass r) stdin));
           Rmt.EvSessionClose]).
Proof.
  intros H. rewrite (RunFacts.run_session net r cmd stdin _ user w H).
  unfold Rmt.sudo, Rmt.As. simpl.
  destruct (String.eqb user (Rmt.connuser r)); reflexivity.
Qed.

Lemma run_by_identity_witness :
  Rmt.log <$> (snd <$> Rmt.run Fixture.quiet Fixture.host "ls /root" "abc"
                         (Rmt.sudo (Rmt.As Fixture.host "-")) "-" Fixture.w0) =
    Some [Rmt.EvNewSession 1%nat;
          Rmt.EvRun ("sudo -k -S -u root bash -c " +:+ Text.str Text.dq +:+ "ls /root"
                     +:+ Text.str Text.dq)
                    ("gosshpwd" +:+ Text.str Text.nl +:+ "abc" +:+ Text.str Text.nl);
          Rmt.EvSessionClose].
Proof.
  exact (run_by_identity Fixture.quiet Fixture.host "ls /root" "abc" "-" Fixture.w0
           eq_refl).
Defined.

(** C1 (as stated) fails: run as the connection identity on stdin [abc],
    the command gets [abc] and a newline, not the given stdin. *)
Lemma run_same_identity_stdin_not_verbatim :
  Rmt.log <$> (snd <$> Rmt.run Fixture.quiet Fixture.host "cat" "abc"
                         (Rmt.sudo (Rmt.As Fixture.host "gossh")) "gossh" Fixture.w0) =
    Some [Rmt.EvNewSession 1%nat;
          Rmt.EvRun "cat" ("abc" +:+ Text.str Text.nl);
          Rmt.EvSessionClose]
  /\ Rmt.EvRun "cat" ("abc" +:+ Text.str Text.nl) <> Rmt.EvRun "cat" "abc".
Proof. split; [reflexivity | discriminate]. Qed.

(** C2: with a session, the exit status of the response is 0 when the
    command ended with no error, the code of the exit error when there is
    one, and -1 when the error says no exit status came; any other error
    is returned by [run], wrapped, and the response's exit status does not
    depend on it. *)
Theorem run_exit_status (net : Rmt.Net) (r : Rmt.Remote) (cmd stdin : string)
    (sudo : bool) (user : string) (w : Rmt.World) :
  Rmt.newSession net (Rmt.conn r) = None ->
  exists (resp : Gossh.Response) (e : option Err.error),
    fst <$> Rmt.run net r cmd stdin sudo user w = Some (resp, e)
    /\ match Rmt.failure
               (Rmt.sessionRun net
                  (if sudo then Escalation.invocation (Escalation.resolve user) cmd else cmd)
                  (if sudo then Escalation.stdinContract (Rmt.sudopass r) stdin
                   else stdin +:+ Text.str Text.nl)) with
       | None => Gossh.ExitStatus resp = 0 /\ e = None
       | Some (Err.ExitError status _) => Gossh.ExitStatus resp = status /\ e = None
       | Some (Err.ExitMissingError _) => Gossh.ExitStatus resp = -1 /\ e = None
       | Some t => e = Some (Err.Wrap t "run of command failed")
                   /\ Gossh.ExitStatus resp = 0
       end.
Proof.
  intros H. rewrite (RunFacts.run_session net r cmd stdin sudo user w H). simpl.
  match goal with |- context [Rmt.failure ?x] => destruct (Rmt.failure x) as [[]|] end;
    eexists _, _; (split; [reflexivity|]); simpl; auto.
Qed.

Lemma run_exit_status_witness :
  exists (resp : Gossh.Response) (e : option Err.error),
    fst <$> Rmt.run (Fixture.far "" (Some (Err.ExitError 127 "Process exited with status 127")) None)
              Fixture.host "nosuchcommand" "" false "gossh" Fixture.w0 = Some (resp, e)
    /\ Gossh.ExitStatus resp = 127 /\ e = None.
Proof.
  exact (run_exit_status
           (Fixture.far "" (Some (Err.ExitError 127 "Process exited with status 127")) None)
           Fixture.host "nosuchcommand" "" false "gossh" Fixture.w0 eq_refl).
Defined.

(** C9: an escalated [run] runs exactly the text [sudo -k -S -u ], the
    resolved user, [ bash -c ], a double quote, the caller's command as it
    is, and a double quote: the line has the quotes of the user, those of
    the command and two more, nothing is escaped, and a command with a
    double quote in it (after a text with no quote and no backslash) ends
    the shell's quoted word at that quote, short of the command. *)
Theorem run_sudo_inserts_command_verbatim (net : Rmt.Net) (r : Rmt.Remote)
    (cmd stdin user : string) (w : Rmt.World) :
  Rmt.newSession net (Rmt.conn r) = None ->
  let u := Escalation.resolve user in
  let line := "sudo -k -S -u " +:+ u +:+ " bash -c " +:+ Text.str Text.dq +:+ cmd
              +:+ Text.str Text.dq in
  Rmt.log <$> (snd <$> Rmt.run net r cmd stdin true user w) =
    Some (Rmt.log w ++
          [Rmt.EvNewSession (Rmt.conn r);
           Rmt.EvRun line (Rmt.sudopass r +:+ Text.str Text.nl +:+ stdin +:+ Text.str Text.nl);
           Rmt.EvSessionClose])
  /\ Shell.count Text.dq line = (Shell.count Text.dq u + 2 + Shell.count Text.dq cmd)%nat
  /\ forall a b : string,
       cmd = a +:+ Text.str Text.dq +:+ b ->
       Text.contains Text.dq a = false -> Text.contains Shell.backslash a = false ->
       Shell.quotedWord (cmd +:+ Text.str Text.dq) = a /\ a <> cmd.
Proof.
  intros H u line. split; [|split].
  - rewrite (RunFacts.run_session net r cmd stdin true user w H). simpl.
    rewrite <- RunFacts.run_stdin. reflexivity.
  - unfold line. rewrite !ShellFacts.count_app. simpl. lia.
  - intros a b -> Hq Hb. split.
    + rewrite !TextFacts.sapp_assoc. apply ShellFacts.quotedWord_plain; assumption.
    + apply ShellFacts.shorter_ne. discriminate.
Qed.

Lemma run_sudo_inserts_command_verbatim_witness :
  Shell.quotedWord (("echo " +:+ Text.str Text.dq +:+ "hi" +:+ Text.str Text.dq)
                    +:+ Text.str Text.dq) = "echo "
  /\ "echo " <> "echo " +:+ Text.str Text.dq +:+ "hi" +:+ Text.str Text.dq.
Proof.
  exact (proj2 (proj2 (run_sudo_inserts_command_verbatim Fixture.quiet Fixture.host
                         ("echo " +:+ Text.str Text.dq +:+ "hi" +:+ Text.str Text.dq)
                         "" "root" Fixture.w0 eq_refl))
           "echo " ("hi" +:+ Text.str Text.dq) eq_refl eq_refl eq_refl).
Defined.

(** C10: every [run] with a session, escalated or not, returns the scrub
    of the captured stdout and of the captured stderr; so without any
    escalation an output of newlines around a text comes back as the text,
    and an output that is a prompt, a newline and a text comes back with
    the prompt gone and that newline still in front: the trim ran before
    the prompt was removed. *)
Theorem run_scrubs_every_output (net : Rmt.Net) (r : Rmt.Remote) (cmd stdin : string)
    (sudo : bool) (user : string) (w : Rmt.World) :
  Rmt.newSession net (Rmt.conn r) = None ->
  let res := Rmt.sessionRun net
               (if sudo then Escalation.invocation (Escalation.resolve user) cmd else cmd)
               (if sudo then Escalation.stdinContract (Rmt.sudopass r) stdin
                else stdin +:+ Text.str Text.nl) in
  exists (resp : Gossh.Response) (e : option Err.error),
    fst <$> Rmt.run net r cmd stdin sudo user w = Some (resp, e)
    /\ Gossh.Stdout resp = Rmt.scrubStd (Rmt.out res)
    /\ Gossh.Stderr resp = Rmt.scrubStd (Rmt.err res)
    /\ (forall (a b : nat) (t : string),
          Text.contains "[" t = false ->
          Text.TrimLeft Text.nl t = t -> Text.TrimRight Text.nl t = t ->
          Rmt.out res = Text.rep a Text.nl +:+ t +:+ Text.rep b Text.nl ->
          Gossh.Stdout resp = t)
    /\ (forall u t : string,
          Regexp.isName u = true -> t <> "" -> Text.TrimRight Text.nl t = t ->
          Rmt.out res = Regexp.prompt u +:+ Text.str Text.nl +:+ t ->
          Gossh.Stdout resp = Text.str Text.nl +:+ Regexp.ReplaceAllString t "").
Proof.
  intros H res.
  rewrite (RunFacts.run_session net r cmd stdin sudo user w H). fold res. simpl.
  destruct (Rmt.failure res) as [[]|] eqn:E; eexists _, _;
    (split; [reflexivity|]); simpl; (split; [reflexivity|]); (split; [reflexivity|]);
    (split;
     [ intros a b t Hb Hl Hr ->;
       apply (ScrubFacts.scrubStd_prompts_newlines a b [] t); auto
     | intros u t Hu Hne Ht ->;
       apply ScrubFacts.scrubStd_newline_after_prompt; auto ]).
Qed.

Lemma run_scrubs_every_output_witness :
  exists (resp : Gossh.Response) (e : option Err.error),
    fst <$> Rmt.run (Fixture.far (Regexp.prompt "x" +:+ Text.str Text.nl +:+ "y") None None)
              Fixture.host "cat motd" "" false "gossh" Fixture.w0 = Some (resp, e)
    /\ Gossh.Stdout resp = Text.str Text.nl +:+ "y"
    /\ Gossh.Stderr resp = "".
Proof.
  destruct (run_scrubs_every_output
              (Fixture.far (Regexp.prompt "x" +:+ Text.str Text.nl +:+ "y") None None)
              Fixture.host "cat motd" "" false "gossh" Fixture.w0 eq_refl)
    as (resp & e & Hrun & _ & Herr & _ & Hp).
  exists resp, e. split; [exact Hrun|]. split; [|exact Herr].
  exact (Hp "x" "y" eq_refl ltac:(discriminate) eq_refl eq_refl).
Defined.

(** ** [put] *)
Module PutFacts.
Import Text TextFacts Err Rmt Scp.

(** Modes within the permission bits print as four octal digits. *)
Lemma fmt_04o_four (mode : N) : (mode < 4096)%N -> String.length (fmt_04o mode) = 4%nat.
Proof.
  intros H.
  assert (Hall : forallb (fun k => Nat.eqb (String.length (fmt_04o (N.of_nat k))) 4)
                   (seq 0 4096) = true) by (vm_compute; reflexivity).
  rewrite forallb_forall in Hall.
  specialize (Hall (N.to_nat mode)). rewrite N2Nat.id in Hall.
  apply Nat.eqb_eq, Hall, in_seq. lia.
Qed.

(** A pipe with no limit takes every write. *)
Lemma Write_unlimited (p : Pipe) (b : string) :
  room p = None -> Write p b = (mkPipe (delivered p +:+ b) None, None).
Proof. intros H. unfold Write. rewrite H. reflexivity. Qed.

Lemma taken_unlimited (content : string) (size : Z) (path : string) (mode : N) :
  taken (mkPipe "" None) content size path mode
  = header mode size path +:+ content +:+ str nul.
Proof. unfold taken. rewrite !Write_unlimited by reflexivity. simpl. apply sapp_assoc. Qed.

Section WithNet.
Variable net : Net.

Lemma put_no_session (r : Remote) (content : string) (size : Z) (path : string)
    (mode : N) (w : World) (e : error) :
  newSession net (conn r) = Some e ->
  put net r content size path mode w =
    Some (Some (Wrap e "failed to create scp session"),
          mkWorld (caches w) (fresh w) (log w ++ [EvNewSession (conn r)])).
Proof. intros H. unfold put. RunFacts.unfold_M. simpl. rewrite H. reflexivity. Qed.

(** With a session and a pipe, [put] runs the scp receiver on what the
    pipe took, and its result is the receiver's alone. *)
Lemma put_session (r : Remote) (content : string) (size : Z) (path : string)
    (mode : N) (w : World) (p : Pipe) :
  newSession net (conn r) = None ->
  stdinPipe net = Some p ->
  let cmd := "/usr/bin/scp -tr " +:+ path in
  let stdin := taken p content size path mode in
  put net r content size path mode w =
    Some (match (combinedOutput net cmd stdin).2 with
          | Some e =>
              Some (Wrap e ("unable to copy content: " +:+ (combinedOutput net cmd stdin).1))
          | None => None
          end,
          mkWorld (caches w) (fresh w)
            (log w ++ [EvNewSession (conn r); EvCombinedOutput cmd stdin; EvSessionClose])).
Proof.
  intros H Hp cmd stdin. unfold put, putWriter. RunFacts.unfold_M. cbv beta.
  rewrite Hp. cbn [fst snd]. rewrite H. unfold stdin, taken, header. fold cmd.
  destruct (Write p _) as [p1 e1]. cbn [fst snd].
  destruct (Write p1 content) as [p2 e2]. cbn [fst snd].
  destruct (Write p2 (str nul)) as [p3 e3]. cbn [fst snd].
  destruct (combinedOutput net cmd (delivered p3)) as [b [e|]]; cbn;
    rewrite <- !List.app_assoc; reflexivity.
Qed.

(** Without a pipe the goroutine panics. *)
Lemma put_no_pipe (r : Remote) (content : string) (size : Z) (path : string)
    (mode : N) (w : World) :
  newSession net (conn r) = None -> stdinPipe net = None ->
  put net r content size path mode w = None.
Proof. intros H Hp. unfold put, putWriter. RunFacts.unfold_M. simpl. rewrite H, Hp. reflexivity. Qed.

End WithNet.
End PutFacts.

(** C3: with a session and a stdin pipe that takes every byte, [put] of a
    content of [L] bytes (the size it is given) to a path, with a mode,
    runs [/usr/bin/scp -tr <path>] on exactly the header line [C], the
    mode in octal padded to four digits (exactly four for a mode within
    the permission bits), [L], the base name of the path and a newline,
    then the content, then one zero byte; it returns no error exactly when
    the receiver's error is nil, that is when the exit status is zero,
    and otherwise an error whose text holds the captured output as it is.
    For five bytes, [x.txt] and mode 0644 the header is [C0644 5 x.txt]
    and a newline. *)
Theorem put_wire_format (net : Rmt.Net) (r : Rmt.Remote) (content : string) (size : Z)
    (path : string) (mode : N) (w : Rmt.World) :
  Rmt.newSession net (Rmt.conn r) = None ->
  Rmt.stdinPipe net = Some (Rmt.mkPipe "" None) ->
  size = Z.of_nat (String.length content) ->
  let cmd := "/usr/bin/scp -tr " +:+ path in
  let stdin := Scp.header mode (Z.of_nat (String.length content)) path
               +:+ content +:+ Text.str Text.nul in
  exists (res : option Err.error) (w' : Rmt.World),
    Rmt.put net r content size path mode w = Some (res, w')
    /\ Rmt.log w' = Rmt.log w ++ [Rmt.EvNewSession (Rmt.conn r);
                                   Rmt.EvCombinedOutput cmd stdin; Rmt.EvSessionClose]
    /\ (res = None <-> (Rmt.combinedOutput net cmd stdin).2 = None)
    /\ (forall x : Err.Exit,
          (Rmt.combinedOutput net cmd stdin).2 = Err.waitError x ->
          (res = None <-> x = Err.Exited 0))
    /\ (forall e : Err.error,
          (Rmt.combinedOutput net cmd stdin).2 = Some e ->
          exists e' : Err.error,
            res = Some e'
            /\ Err.Error e' = "unable to copy content: "
                              +:+ (Rmt.combinedOutput net cmd stdin).1 +:+ ": " +:+ Err.Error e)
    /\ ((mode < 4096)%N -> String.length (Text.fmt_04o mode) = 4%nat)
    /\ Scp.header 420 5 "x.txt" = "C0644 5 x.txt" +:+ Text.str Text.nl.
Proof.
  intros H Hp -> cmd stdin.
  rewrite (PutFacts.put_session net r content _ path mode w _ H Hp).
  rewrite PutFacts.taken_unlimited. fold cmd stdin.
  eexists _, _. split; [reflexivity|]. split; [reflexivity|].
  destruct (Rmt.combinedOutput net cmd stdin) as [b [e|]] eqn:E; cbn [fst snd].
  - split; [split; discriminate|]. split; [|split; [|split]].
    + intros x Hx. split; [discriminate|]. intros ->. discriminate.
    + intros e0 [= <-]. eexists. split; [reflexivity|].
      cbn [Err.Error Err.Wrap]. apply TextFacts.sapp_assoc.
    + apply PutFacts.fmt_04o_four.
    + reflexivity.
  - split; [split; reflexivity|]. split; [|split; [|split]].
    + intros x Hx. split; [|reflexivity]. intros _.
      destruct x as [[|st|st]|]; (reflexivity || discriminate).
    + discriminate.
    + apply PutFacts.fmt_04o_four.
    + reflexivity.
Qed.

Lemma put_wire_format_witness :
  exists (res : option Err.error) (w' : Rmt.World),
    Rmt.put Fixture.quiet Fixture.host "hello" 5 "/tmp/x.txt" 420 Fixture.w0 = Some (res, w')
    /\ Rmt.log w' = [Rmt.EvNewSession 1%nat;
                     Rmt.EvCombinedOutput "/usr/bin/scp -tr /tmp/x.txt"
                       ("C0644 5 x.txt" +:+ Text.str Text.nl +:+ "hello" +:+ Text.str Text.nul);
                     Rmt.EvSessionClose]
    /\ (res = None <-> @None Err.error = None).
Proof.
  destruct (put_wire_format Fixture.quiet Fixture.host "hello" 5 "/tmp/x.txt" 420
              Fixture.w0 eq_refl eq_refl eq_refl)
    as (res & w' & Hput & Hlog & Hres & _).
  exists res, w'. split; [exact Hput|]. split; [exact Hlog | exact Hres].
Defined.

(** ** The sftp client cache *)
Module CacheFacts.
Import Text TextFacts Err Rmt Sessions.

Lemma kindFor_sudo (net : Net) (r : Remote) :
  (if sudo r
   then NewClient net (SudoClient (conn r) (activeuser r) (sudopass r))
   else NewClient net (DirectClient (conn r))) = NewClient net (kindFor r).
Proof. unfold sudo, kindFor. destruct (String.eqb _ _); reflexivity. Qed.

Lemma identityOf_kindFor (r : Remote) : identityOf (connuser r) (kindFor r) = activeuser r.
Proof.
  unfold kindFor. destruct (String.eqb_spec (activeuser r) (connuser r)) as [E|E];
    simpl; congruence.
Qed.

Lemma opened_app (cu u : string) (l1 l2 : list Event) :
  opened cu u (l1 ++ l2) = opened cu u l1 ++ opened cu u l2.
Proof.
  induction l1 as [|[] l1 IH]; simpl; try exact IH; [reflexivity|].
  destruct (String.eqb _ u); simpl; congruence.
Qed.

Section WithNet.
Variable net : Net.

(** A cached client is returned, and nothing happens. *)
Lemma sftpClient_cached (r : Remote) (w : World) (m : gmap string ClientRef)
    (c : ClientRef) :
  caches w !! sftp r = Some m -> m !! activeuser r = Some c ->
  sftpClient net r w = Some (inl c, w).
Proof.
  intros Hm Hc. unfold sftpClient, mapGet. RunFacts.unfold_M.
  rewrite Hm. simpl. rewrite Hc. reflexivity.
Qed.

(** With none cached, one client is started, of the kind the identity
    calls for, and stored under the identity. *)
Lemma sftpClient_new (r : Remote) (w : World) (m : gmap string ClientRef) :
  caches w !! sftp r = Some m -> m !! activeuser r = None ->
  newClient net (kindFor r) = None ->
  sftpClient net r w =
    Some (inl (fresh w),
          mkWorld (<[sftp r := <[activeuser r := fresh w]> m]> (caches w))
                  (S (fresh w))
                  (log w ++ [EvNewClient (kindFor r) (fresh w)])).
Proof.
  intros Hm Hc Hn. unfold sftpClient. rewrite kindFor_sudo.
  unfold mapGet, mapSet, NewClient. RunFacts.unfold_M.
  rewrite Hm. simpl. rewrite Hc, Hn. simpl. rewrite Hm. reflexivity.
Qed.

(** When the client cannot be started the error comes back, wrapped, and
    nothing is stored. *)
Lemma sftpClient_failed (r : Remote) (w : World) (e : error) :
  default ∅ (caches w !! sftp r) !! activeuser r = None ->
  newClient net (kindFor r) = Some e ->
  sftpClient net r w =
    Some (inr (Wrap e ("could not start sftp connection for " +:+ activeuser r)), w).
Proof.
  intros Hc Hn. unfold sftpClient. rewrite kindFor_sudo.
  unfold mapGet, NewClient. RunFacts.unfold_M.
  simpl. rewrite Hc, Hn. reflexivity.
Qed.

Lemma closeEach_log (cs : list ClientRef) (w : World) :
  closeEach net cs w =
    Some (tt, mkWorld (caches w) (fresh w) (log w ++ map EvClientClose cs)).
Proof.
  revert w. induction cs as [|c cs IH]; intros w.
  - simpl. rewrite List.app_nil_r. destruct w; reflexivity.
  - simpl. RunFacts.unfold_M. simpl. rewrite IH. simpl.
    rewrite <- List.app_assoc. reflexivity.
Qed.

(** [Close] closes each cached client and the connection, and returns the
    connection's error alone. *)
Lemma Close_log (r : Remote) (w : World) :
  Close net r w =
    Some (connClose net (conn r),
          mkWorld (caches w) (fresh w)
            (log w ++ map EvClientClose (map_to_list (default ∅ (caches w !! sftp r))).*2
                   ++ [EvConnClose (conn r)])).
Proof.
  unfold Close, mapValues. RunFacts.unfold_M. rewrite closeEach_log. simpl.
  rewrite <- List.app_assoc. reflexivity.
Qed.

Lemma Close_closes_cached (r : Remote) (w : World) (m : gmap string ClientRef)
    (u : string) (c : ClientRef) :
  caches w !! sftp r = Some m -> m !! u = Some c ->
  exists w', Close net r w = Some (connClose net (conn r), w')
             /\ In (EvClientClose c) (log w') /\ caches w' = caches w.
Proof.
  intros Hm Hc. rewrite Close_log. eexists. split; [reflexivity|]. simpl.
  split; [|reflexivity].
  rewrite Hm. simpl. apply in_or_app. right. apply in_or_app. left.
  apply in_map. apply list_elem_of_In. apply list_elem_of_fmap.
  exists (u, c). split; [reflexivity|]. apply elem_of_map_to_list. exact Hc.
Qed.

(** Each step of a caller keeps the cache and the trace in agreement. *)
Lemma consistent_sftpClient (r : Remote) (u : string) (w : World) :
  consistent r w ->
  exists res w', sftpClient net (As r u) w = Some (res, w') /\ consistent r w'.
Proof.
  intros (m & Hm & Ho).
  destruct (m !! u) as [c|] eqn:Hc.
  - exists (inl c), w. split; [|exists m; auto].
    apply (sftpClient_cached (As r u) w m c); assumption.
  - destruct (newClient net (kindFor (As r u))) as [e|] eqn:Hn.
    + eexists _, w. split; [|exists m; auto].
      apply (sftpClient_failed (As r u) w e); [|exact Hn].
      simpl. rewrite Hm. exact Hc.
    + eexists _, _. split; [apply (sftpClient_new (As r u) w m); assumption|].
      exists (<[u := fresh w]> m). simpl. split; [apply lookup_insert_eq|].
      intros u'. rewrite opened_app, Ho. simpl.
      change (connuser r) with (connuser (As r u)).
      rewrite identityOf_kindFor. simpl.
      destruct (String.eqb_spec u u') as [<-|Hne].
      * rewrite Hc, lookup_insert_eq. reflexivity.
      * rewrite lookup_insert_ne by exact Hne. apply List.app_nil_r.
Qed.

Lemma consistent_log (r : Remote) (w : World) (l : list Event) :
  (forall u, opened (connuser r) u l = []) ->
  consistent r w -> consistent r (mkWorld (caches w) (fresh w) (log w ++ l)).
Proof.
  intros Hl (m & Hm & Ho). exists m. split; [exact Hm|].
  intros u. simpl. rewrite opened_app, Hl, List.app_nil_r. apply Ho.
Qed.

Lemma opened_closes (cu u : string) (cs : list ClientRef) (l : list Event) :
  opened cu u (map EvClientClose cs ++ l) = opened cu u l.
Proof. induction cs as [|c cs IH]; [reflexivity | exact IH]. Qed.

Lemma consistent_perform (r : Remote) (op : Op) (w : World) :
  consistent r w ->
  exists w', perform net r op w = Some (tt, w') /\ consistent r w'.
Proof.
  intros Hw. destruct op as [u|u path|]; unfold perform.
  - destruct (consistent_sftpClient r u w Hw) as (res & w' & E & Hw').
    exists w'. RunFacts.unfold_M. rewrite E. auto.
  - destruct (consistent_sftpClient r u w Hw) as (res & w' & E & Hw').
    unfold Mkdir. RunFacts.unfold_M. rewrite E. destruct res as [c|e].
    + eexists. split; [reflexivity|].
      apply (consistent_log r w' [EvMkdir c path]); auto.
    + exists w'. auto.
  - RunFacts.unfold_M. rewrite Close_log. eexists. split; [reflexivity|].
    apply (consistent_log r w); auto.
    intros u. apply opened_closes.
Qed.

Lemma consistent_performAll (r : Remote) (ops : list Op) (w : World) :
  consistent r w ->
  exists w', performAll net r ops w = Some (tt, w') /\ consistent r w'.
Proof.
  revert w. induction ops as [|op ops IH]; intros w Hw.
  - exists w. auto.
  - destruct (consistent_perform r op w Hw) as (w1 & E1 & Hw1).
    destruct (IH w1 Hw1) as (w2 & E2 & Hw2).
    exists w2. split; [|exact Hw2].
    simpl. RunFacts.unfold_M. rewrite E1. exact E2.
Qed.

(** In a consistent world no identity has two clients. *)
Lemma consistent_at_most_one (r : Remote) (w : World) (u : string) :
  consistent r w -> (length (opened (connuser r) u (log w)) <= 1)%nat.
Proof.
  intros (m & _ & Ho). rewrite Ho. destruct (m !! u); simpl; lia.
Qed.

End WithNet.
End CacheFacts.

(** C4: the lookup returns the client cached for the active identity when
    there is one and starts nothing; with none cached it starts exactly
    one client (directly when the active identity is the connection
    identity, through sudo when it differs), stores it under the active
    identity, and the next lookup returns that same client and starts
    nothing; [Close] closes every cached client; and whatever a caller
    does in a row, acting as any identities, the calls return and no
    identity ever has more than one client opened for it. *)
Theorem sftpClient_one_client_per_identity (net : Rmt.Net) (r : Rmt.Remote)
    (w : Rmt.World) (m : gmap string Rmt.ClientRef) :
  Rmt.caches w !! Rmt.sftp r = Some m ->
  (forall c : Rmt.ClientRef,
     m !! Rmt.activeuser r = Some c -> Rmt.sftpClient net r w = Some (inl c, w))
  /\ (m !! Rmt.activeuser r = None ->
      Rmt.newClient net (Sessions.kindFor r) = None ->
      exists w' : Rmt.World,
        Rmt.sftpClient net r w = Some (inl (Rmt.fresh w), w')
        /\ Rmt.log w' = Rmt.log w ++ [Rmt.EvNewClient (Sessions.kindFor r) (Rmt.fresh w)]
        /\ Rmt.caches w' !! Rmt.sftp r = Some (<[Rmt.activeuser r := Rmt.fresh w]> m)
        /\ Rmt.sftpClient net r w' = Some (inl (Rmt.fresh w), w'))
  /\ (exists w' : Rmt.World,
        Rmt.Close net r w = Some (Rmt.connClose net (Rmt.conn r), w')
        /\ forall (u : string) (c : Rmt.ClientRef),
             m !! u = Some c -> In (Rmt.EvClientClose c) (Rmt.log w'))
  /\ (Sessions.consistent r w ->
      forall ops : list Sessions.Op,
      exists w' : Rmt.World,
        Sessions.performAll net r ops w = Some (tt, w')
        /\ forall u : string,
             (length (Sessions.opened (Rmt.connuser r) u (Rmt.log w')) <= 1)%nat).
Proof.
  intros Hm. split; [|split; [|split]].
  - intros c Hc. apply (CacheFacts.sftpClient_cached net r w m c Hm Hc).
  - intros Hc Hn. eexists. split; [apply (CacheFacts.sftpClient_new net r w m Hm Hc Hn)|].
    split; [reflexivity|]. split; [apply lookup_insert_eq|].
    eapply CacheFacts.sftpClient_cached; simpl; apply lookup_insert_eq.
  - rewrite CacheFacts.Close_log. eexists. split; [reflexivity|].
    intros u c Hc.
    destruct (CacheFacts.Close_closes_cached net r w m u c Hm Hc) as (w' & E & Hin & _).
    rewrite CacheFacts.Close_log in E. injection E as <-. exact Hin.
  - intros Hw ops.
    destruct (CacheFacts.consistent_performAll net r ops w Hw) as (w' & E & Hw').
    exists w'. split; [exact E|].
    intros u. apply (CacheFacts.consistent_at_most_one r w' u Hw').
Qed.

Lemma consistent_w0 : Sessions.consistent Fixture.host Fixture.w0.
Proof.
  exists ∅. split; [reflexivity|]. intros u. rewrite lookup_empty. reflexivity.
Qed.

Lemma sftpClient_one_client_per_identity_witness :
  exists w' : Rmt.World,
    Sessions.performAll Fixture.quiet Fixture.host
      [Sessions.OpSftp "root"; Sessions.OpMkdir "root" "/srv"; Sessions.OpSftp "gossh";
       Sessions.OpSftp "root"; Sessions.OpClose] Fixture.w0 = Some (tt, w')
    /\ forall u : string,
         (length (Sessions.opened "gossh" u (Rmt.log w')) <= 1)%nat.
Proof.
  exact (proj2 (proj2 (proj2
           (sftpClient_one_client_per_identity Fixture.quiet Fixture.host Fixture.w0 ∅
              eq_refl)))
           consistent_w0
           [Sessions.OpSftp "root"; Sessions.OpMkdir "root" "/srv"; Sessions.OpSftp "gossh";
            Sessions.OpSftp "root"; Sessions.OpClose]).
Defined.

Example performAll_trace :
  Rmt.log <$> (snd <$> Sessions.performAll Fixture.quiet Fixture.host
      [Sessions.OpSftp "root"; Sessions.OpMkdir "root" "/srv"; Sessions.OpSftp "gossh";
       Sessions.OpSftp "root"] Fixture.w0)
  = Some [Rmt.EvNewClient (Rmt.SudoClient 1 "root" "gosshpwd") 0;
          Rmt.EvMkdir 0 "/srv";
          Rmt.EvNewClient (Rmt.DirectClient 1) 1]%nat.
Proof. vm_compute. reflexivity. Qed.

(** ** [As] *)
Module AsFacts.
Import Text Err Rmt.

(** What a lookup through any target stores is found in the map that the
    target's [sftp] field refers to. *)
Lemma sftpClient_stores (net : Net) (r : Remote) (w w' : World) (c : ClientRef) :
  sftpClient net r w = Some (inl c, w') ->
  default ∅ (caches w' !! sftp r) !! activeuser r = Some c.
Proof.
  unfold sftpClient. rewrite CacheFacts.kindFor_sudo.
  unfold mapGet, mapSet, NewClient. RunFacts.unfold_M.
  destruct (default ∅ (caches w !! sftp r) !! activeuser r) as [c0|] eqn:Hc.
  - intros [= <- <-]. exact Hc.
  - destruct (newClient net (Sessions.kindFor r)); [discriminate|].
    simpl. destruct (caches w !! sftp r) as [m|]; [|discriminate].
    intros [= <- <-]. simpl. rewrite lookup_insert_eq. simpl. apply lookup_insert_eq.
Qed.

End AsFacts.

(** C6: [As] returns a target that differs from the receiver in the active
    identity alone, which is the one asked for: the connection and the
    sftp cache are the receiver's own (the same references), so a client
    that a lookup through the new target stores is found through the
    receiver's cache; the receiver is a value that [As] gets a copy of,
    and keeps its active identity and every other field. *)
Theorem As_keeps_receiver_and_shares (r : Rmt.Remote) (user : string) :
  Rmt.User (Rmt.As r user) = user
  /\ Rmt.addr (Rmt.As r user) = Rmt.addr r
  /\ Rmt.conn (Rmt.As r user) = Rmt.conn r
  /\ Rmt.connuser (Rmt.As r user) = Rmt.connuser r
  /\ Rmt.sudopass (Rmt.As r user) = Rmt.sudopass r
  /\ Rmt.sftp (Rmt.As r user) = Rmt.sftp r
  /\ Rmt.As (Rmt.As r user) (Rmt.activeuser r) = r
  /\ forall (net : Rmt.Net) (w w' : Rmt.World) (c : Rmt.ClientRef),
       Rmt.sftpClient net (Rmt.As r user) w = Some (inl c, w') ->
       default ∅ (Rmt.caches w' !! Rmt.sftp r) !! user = Some c
       /\ Rmt.sftpClient net (Rmt.As r user) w' = Some (inl c, w').
Proof.
  repeat (split; [reflexivity|]). split; [destruct r; reflexivity|].
  intros net w w' c H.
  pose proof (AsFacts.sftpClient_stores net (Rmt.As r user) w w' c H) as Hs.
  split; [exact Hs|]. simpl in Hs.
  unfold Rmt.sftpClient, Rmt.mapGet. RunFacts.unfold_M. simpl. rewrite Hs. reflexivity.
Qed.

Lemma As_keeps_receiver_and_shares_witness :
  default ∅ (Rmt.caches (Rmt.mkWorld {[ 1%nat := {[ "root" := 0%nat ]} ]} 1%nat
                           [Rmt.EvNewClient (Rmt.SudoClient 1%nat "root" "gosshpwd") 0%nat])
             !! Rmt.sftp Fixture.host) !! "root" = Some 0%nat
  /\ Rmt.sftpClient Fixture.quiet (Rmt.As Fixture.host "root")
       (Rmt.mkWorld {[ 1%nat := {[ "root" := 0%nat ]} ]} 1%nat
          [Rmt.EvNewClient (Rmt.SudoClient 1%nat "root" "gosshpwd") 0%nat])
     = Some (inl 0%nat,
             Rmt.mkWorld {[ 1%nat := {[ "root" := 0%nat ]} ]} 1%nat
               [Rmt.EvNewClient (Rmt.SudoClient 1%nat "root" "gosshpwd") 0%nat]).
Proof.
  apply (proj2 (proj2 (proj2 (proj2 (proj2 (proj2 (proj2
           (As_keeps_receiver_and_shares Fixture.host "root")))))))
           Fixture.quiet Fixture.w0).
  vm_compute. reflexivity.
Defined.

(** C8 (as amended): [Close] returns the error of closing the connection
    and nothing else, whatever closing the cached clients returned; [put]
    returns what the remote command returned, whatever the writes to the
    pipe returned, and the error of creating the session when there is
    one; [run] returns the error of creating the session, and with a
    session it puts an exit error's status, or -1 when no status came,
    into the response and returns no error, and returns any other error
    of the command; [sftpClient] and [Mkdir] return the error of starting
    the client, and [Mkdir] returns that of making the directory, on a
    cached client and on one it has just started. *)
Theorem errors_returned_or_dropped (net : Rmt.Net) (r : Rmt.Remote) (w : Rmt.World) :
  fst <$> Rmt.Close net r w = Some (Rmt.connClose net (Rmt.conn r))
  /\ (forall (content : string) (size : Z) (path : string) (mode : N) (p : Rmt.Pipe),
        Rmt.newSession net (Rmt.conn r) = None -> Rmt.stdinPipe net = Some p ->
        fst <$> Rmt.put net r content size path mode w =
          Some (match (Rmt.combinedOutput net ("/usr/bin/scp -tr " +:+ path)
                         (Scp.taken p content size path mode)).2 with
                | Some e =>
                    Some (Err.Wrap e ("unable to copy content: " +:+
                            (Rmt.combinedOutput net ("/usr/bin/scp -tr " +:+ path)
                               (Scp.taken p content size path mode)).1))
                | None => None
                end))
  /\ (forall (e : Err.error) (content : string) (size : Z) (path : string) (mode : N),
        Rmt.newSession net (Rmt.conn r) = Some e ->
        fst <$> Rmt.put net r content size path mode w =
          Some (Some (Err.Wrap e "failed to create scp session")))
  /\ (forall (e : Err.error) (cmd stdin : string) (sudo : bool) (user : string),
        Rmt.newSession net (Rmt.conn r) = Some e ->
        fst <$> Rmt.run net r cmd stdin sudo user w =
          Some (Gossh.mkResponse "" "" 0, Some (Err.Wrap e "unable to create new session")))
  /\ (forall (e : Err.error) (path : string),
        default ∅ (Rmt.caches w !! Rmt.sftp r) !! Rmt.activeuser r = None ->
        Rmt.newClient net (Sessions.kindFor r) = Some e ->
        fst <$> Rmt.sftpClient net r w =
          Some (inr (Err.Wrap e ("could not start sftp connection for " +:+ Rmt.activeuser r)))
        /\ fst <$> Rmt.Mkdir net r path w =
             Some (Some (Err.Wrap e ("could not start sftp connection for "
                                     +:+ Rmt.activeuser r))))
  /\ (forall (c : Rmt.ClientRef) (path : string),
        default ∅ (Rmt.caches w !! Rmt.sftp r) !! Rmt.activeuser r = Some c ->
        fst <$> Rmt.Mkdir net r path w = Some (Rmt.clientMkdir net c path))
  /\ (forall (m : gmap string Rmt.ClientRef) (path : string),
        Rmt.caches w !! Rmt.sftp r = Some m -> m !! Rmt.activeuser r = None ->
        Rmt.newClient net (Sessions.kindFor r) = None ->
        fst <$> Rmt.Mkdir net r path w = Some (Rmt.clientMkdir net (Rmt.fresh w) path))
  /\ (forall (cmd stdin : string) (sudo : bool) (user : string),
        Rmt.newSession net (Rmt.conn r) = None ->
        let res := Rmt.sessionRun net
                     (if sudo then Escalation.invocation (Escalation.resolve user) cmd
                      else cmd)
                     (if sudo then Escalation.stdinContract (Rmt.sudopass r) stdin
                      else stdin +:+ Text.str Text.nl) in
        fst <$> Rmt.run net r cmd stdin sudo user w =
          Some (match Rmt.failure res with
                | Some (Err.ExitError status _) =>
                    (Gossh.mkResponse (Rmt.scrubStd (Rmt.out res))
                       (Rmt.scrubStd (Rmt.err res)) status, None)
                | Some (Err.ExitMissingError _) =>
                    (Gossh.mkResponse (Rmt.scrubStd (Rmt.out res))
                       (Rmt.scrubStd (Rmt.err res)) (-1), None)
                | Some t =>
                    (Gossh.mkResponse (Rmt.scrubStd (Rmt.out res))
                       (Rmt.scrubStd (Rmt.err res)) 0,
                     Some (Err.Wrap t "run of command failed"))
                | None =>
                    (Gossh.mkResponse (Rmt.scrubStd (Rmt.out res))
                       (Rmt.scrubStd (Rmt.err res)) 0, None)
                end)).
Proof.
  split; [rewrite CacheFacts.Close_log; reflexivity|].
  split; [intros content size path mode p H Hp;
          rewrite (PutFacts.put_session net r content size path mode w p H Hp);
          reflexivity|].
  split; [intros e content size path mode H;
          rewrite (PutFacts.put_no_session net r content size path mode w e H);
          reflexivity|].
  split; [intros e cmd stdin sudo user H;
          rewrite (RunFacts.run_no_session net r cmd stdin sudo user w e H);
          reflexivity|].
  split; [|split; [|split]].
  - intros e path Hc Hn. unfold Rmt.Mkdir. RunFacts.unfold_M.
    rewrite (CacheFacts.sftpClient_failed net r w e Hc Hn). split; reflexivity.
  - intros c path Hc. unfold Rmt.Mkdir, Rmt.sftpClient, Rmt.mapGet.
    RunFacts.unfold_M. simpl. rewrite Hc. reflexivity.
  - intros m path Hm Hc Hn. unfold Rmt.Mkdir. RunFacts.unfold_M.
    rewrite (CacheFacts.sftpClient_new net r w m Hm Hc Hn). reflexivity.
  - intros cmd stdin sudo user H res.
    rewrite (RunFacts.run_session net r cmd stdin sudo user w H). reflexivity.
Qed.

Lemma errors_returned_or_dropped_witness :
  fst <$> Rmt.put (Fixture.far "scp: /root: Permission denied"
                     (Some (Err.ExitError 1 "Process exited with status 1")) (Some 3%nat))
            Fixture.host "hello" 5 "/root/x.txt" 420 Fixture.w0 =
    Some (Some (Err.Wrap (Err.ExitError 1 "Process exited with status 1")
                  "unable to copy content: scp: /root: Permission denied")).
Proof.
  exact (proj1 (proj2 (errors_returned_or_dropped
           (Fixture.far "scp: /root: Permission denied"
              (Some (Err.ExitError 1 "Process exited with status 1")) (Some 3%nat))
           Fixture.host Fixture.w0))
           "hello" 5 "/root/x.txt" 420%N (Rmt.mkPipe "" (Some 3%nat)) eq_refl eq_refl).
Defined.

(** C8 (as stated) fails: with one cached client whose [Close] fails,
    [Close] of the target closes it, drops the error and returns nil; and
    with a stdin pipe that takes no byte, where each of the three writes
    of [put] fails, [put] returns nil. *)
Lemma Close_and_put_drop_errors :
  Rmt.clientClose Fixture.lossy 0%nat = Some (Err.errorString "connection lost")
  /\ Rmt.Close Fixture.lossy Fixture.host Fixture.w1 =
       Some (None,
             Rmt.mkWorld (Rmt.caches Fixture.w1) 1%nat
               [Rmt.EvNewClient (Rmt.DirectClient 1%nat) 0%nat;
                Rmt.EvClientClose 0%nat; Rmt.EvConnClose 1%nat])
  /\ (Rmt.Write (Rmt.mkPipe "" (Some 0%nat)) "hello").2
       = Some (Err.errorString "io: read/write on closed pipe")
  /\ Rmt.put (Fixture.far "" None (Some 0%nat)) Fixture.host "hello" 5 "/tmp/x.txt" 420
        Fixture.w0 =
       Some (None,
             Rmt.mkWorld (Rmt.caches Fixture.w0) 0%nat
               [Rmt.EvNewSession 1%nat;
                Rmt.EvCombinedOutput "/usr/bin/scp -tr /tmp/x.txt" "";
                Rmt.EvSessionClose]).
Proof. repeat split; vm_compute; reflexivity. Qed.

(** ** The tree indent *)
Module IndentFacts.
Import Gossh.

Lemma length_units (k : nat) : length (concat (repeat indentUnit k)) = (2 * k)%nat.
Proof. induction k as [|k IH]; [reflexivity|]. simpl. rewrite IH. lia. Qed.

Lemma half_odd (n : Z) :
  0 < n -> Z.to_nat n = (2 * Z.to_nat (n / 2) + (if Z.odd n then 1 else 0))%nat.
Proof.
  intros Hn. pose proof (Z.div2_odd n) as H. rewrite Z.div2_div in H.
  assert (0 <= n / 2) by (apply Z.div_pos; lia).
  destruct (Z.odd n); simpl Z.b2z in H; lia.
Qed.

(** Even places hold the space and odd places the bar. *)
Lemma nth_units (k i : nat) :
  (i < 2 * k)%nat ->
  nth i (concat (repeat indentUnit k)) 0%N = if Nat.even i then space else bar.
Proof.
  revert i. induction k as [|k IH]; intros i Hi; [lia|].
  destruct i as [|[|i]]; [reflexivity | reflexivity |].
  simpl concat. simpl nth. rewrite IH by lia. reflexivity.
Qed.

End IndentFacts.

(** C7: [nSpaces] returns the empty string for every [n <= 0]; for
    [n > 0] it returns exactly [n] characters, the unit of a space and a
    vertical bar repeated [n/2] times, then one space when [n] is odd, so
    that a space stands at each even place and a bar at each odd place;
    and it gives the strings of the table of [TestNSpaces]. *)
Theorem nSpaces_shape (n : Z) :
  (n <= 0 -> Gossh.nSpaces n = [])
  /\ (0 < n ->
      length (Gossh.nSpaces n) = Z.to_nat n
      /\ Gossh.nSpaces n =
           concat (repeat [Gossh.space; Gossh.bar] (Z.to_nat (n / 2)))
           ++ (if Z.odd n then [Gossh.space] else [])
      /\ forall i : nat,
           (i < Z.to_nat n)%nat ->
           nth i (Gossh.nSpaces n) 0%N = if Nat.even i then Gossh.space else Gossh.bar)
  /\ forallb (fun t => String.eqb (Gossh.utf8 (Gossh.nSpaces t.1)) t.2)
       Gossh.nSpaces_tests = true.
Proof.
  split; [|split].
  - intros H. unfold Gossh.nSpaces. destruct (Z.leb_spec n 0); [reflexivity | lia].
  - intros H. unfold Gossh.nSpaces. destruct (Z.leb_spec n 0); [lia|].
    split; [|split; [reflexivity|]].
    + rewrite length_app, IndentFacts.length_units, (IndentFacts.half_odd n H).
      destruct (Z.odd n); reflexivity.
    + intros i Hi. rewrite (IndentFacts.half_odd n H) in Hi.
      destruct (Nat.lt_ge_cases i (2 * Z.to_nat (n / 2))) as [Hlt|Hge].
      * rewrite app_nth1 by (rewrite IndentFacts.length_units; exact Hlt).
        apply IndentFacts.nth_units. exact Hlt.
      * rewrite app_nth2 by (rewrite IndentFacts.length_units; exact Hge).
        rewrite IndentFacts.length_units.
        destruct (Z.odd n); [|lia].
        assert (i = (2 * Z.to_nat (n / 2))%nat) as -> by lia.
        rewrite Nat.sub_diag, Nat.even_mul. reflexivity.
  - vm_compute. reflexivity.
Qed.

Lemma nSpaces_shape_witness :
  length (Gossh.nSpaces 9) = 9%nat
  /\ Gossh.nSpaces 9 =
       concat (repeat [Gossh.space; Gossh.bar] (Z.to_nat (9 / 2)))
       ++ (if Z.odd 9 then [Gossh.space] else []).
Proof.
  destruct (proj1 (proj2 (nSpaces_shape 9)) eq_refl) as (Hlen & Heq & _).
  exact (conj Hlen Heq).
Defined.

(** * Further properties of the package *)

(** ** More on the scrubber *)
Module ScrubMore.
Import Text TextFacts Regexp RegexpFacts Rmt.

Lemma TrimRight_rep_l (c : ascii) (a : nat) (s : string) :
  TrimRight c (rep a c +:+ s) =
  match TrimRight c s with
  | EmptyString => ""
  | t => rep a c +:+ t
  end.
Proof.
  induction a as [|a IH].
  { change (rep 0 c +:+ s) with s. destruct (TrimRight c s); reflexivity. }
  simpl rep. rewrite sapp_cons, TrimRight_cons, IH.
  destruct (TrimRight c s) as [|x t].
  - rewrite Ascii.eqb_refl. reflexivity.
  - destruct (rep a c +:+ String x t) eqn:E.
    + apply sapp_eq_nil in E. destruct E; discriminate.
    + rewrite sapp_cons, E. reflexivity.
Qed.

Lemma Trim_outer (c : ascii) (a b : nat) (s : string) :
  Trim c (rep a c +:+ s +:+ rep b c) = Trim c s.
Proof.
  unfold Trim. rewrite <- sapp_assoc, TrimRight_rep, TrimRight_rep_l.
  destruct (TrimRight c s) as [|x t]; [reflexivity|].
  apply TrimLeft_rep.
Qed.

Lemma length_TrimLeft (c : ascii) (s : string) :
  (String.length (TrimLeft c s) <= String.length s)%nat.
Proof.
  induction s as [|a s IH]; [simpl; lia|].
  simpl. destruct (Ascii.eqb a c); simpl; lia.
Qed.

Lemma length_TrimRight (c : ascii) (s : string) :
  (String.length (TrimRight c s) <= String.length s)%nat.
Proof.
  induction s as [|a s IH]; [simpl; lia|].
  rewrite TrimRight_cons. destruct (TrimRight c s) as [|x t].
  - destruct (Ascii.eqb a c); simpl; lia.
  - simpl in *. lia.
Qed.

Lemma length_replaceFrom (k : nat) (s : string) :
  (String.length (replaceFrom "" k s) <= String.length s)%nat.
Proof.
  revert k. induction s as [|a s IH]; intros k; [simpl; lia|].
  simpl. destruct k as [|k].
  - destruct (matchLen (String a s)) as [[|n]|].
    + simpl. specialize (IH 0%nat). lia.
    + rewrite sapp_nil_l. specialize (IH n). lia.
    + simpl. specialize (IH 0%nat). lia.
  - specialize (IH k). lia.
Qed.

Lemma contains_TrimLeft (c d : ascii) (s : string) :
  contains c s = false -> contains c (TrimLeft d s) = false.
Proof.
  induction s as [|a s IH]; intros H; [reflexivity|].
  simpl in *. apply orb_false_iff in H as [Ha Hs].
  destruct (Ascii.eqb a d); [auto|]. simpl. rewrite Ha. exact Hs.
Qed.

Lemma contains_TrimRight (c d : ascii) (s : string) :
  contains c s = false -> contains c (TrimRight d s) = false.
Proof.
  induction s as [|a s IH]; intros H; [reflexivity|].
  simpl in H. apply orb_false_iff in H as [Ha Hs].
  rewrite TrimRight_cons. specialize (IH Hs).
  destruct (TrimRight d s) as [|x t].
  - destruct (Ascii.eqb a d); [reflexivity|]. simpl. rewrite Ha. reflexivity.
  - change (contains c (String a (String x t)))
      with (Ascii.eqb a c || contains c (String x t)).
    rewrite Ha, IH. reflexivity.
Qed.

Lemma TrimRight_TrimLeft (c : ascii) (t : string) :
  TrimRight c t = t -> TrimRight c (TrimLeft c t) = TrimLeft c t.
Proof.
  induction t as [|a t IH]; intros H; [reflexivity|].
  simpl. destruct (Ascii.eqb a c) eqn:Ea; [|exact H].
  apply IH. rewrite TrimRight_cons, Ea in H.
  destruct (TrimRight c t) as [|x u]; [discriminate|]. congruence.
Qed.

Lemma Trim_idem (c : ascii) (s : string) : Trim c (Trim c s) = Trim c s.
Proof.
  unfold Trim. rewrite TrimRight_TrimLeft by apply TrimRight_idem.
  apply TrimLeft_idem.
Qed.

End ScrubMore.

(** X1: [scrubStd] does not see newlines at the ends of its input: with
    any number of newlines added in front and behind, the result is that
    of the text alone (so the output of [echo] and of [echo -n] scrub to
    the same). *)
Theorem scrubStd_ignores_outer_newlines (a b : nat) (s : string) :
  Rmt.scrubStd (Text.rep a Text.nl +:+ s +:+ Text.rep b Text.nl) = Rmt.scrubStd s.
Proof. unfold Rmt.scrubStd. rewrite ScrubMore.Trim_outer. reflexivity. Qed.

(** X2: [scrubStd] never returns more bytes than it is given. *)
Theorem scrubStd_never_longer (s : string) :
  (String.length (Rmt.scrubStd s) <= String.length s)%nat.
Proof.
  unfold Rmt.scrubStd, Rmt.sudopattern_ReplaceAllString, Regexp.ReplaceAllString, Text.Trim.
  pose proof (ScrubMore.length_replaceFrom 0
                (Text.TrimLeft Text.nl (Text.TrimRight Text.nl s))).
  pose proof (ScrubMore.length_TrimLeft Text.nl (Text.TrimRight Text.nl s)).
  pose proof (ScrubMore.length_TrimRight Text.nl s). lia.
Qed.

(** X3: on a text with no opening bracket [scrubStd] is the trim of
    newlines and nothing more, and scrubbing its result again changes
    nothing. *)
Theorem scrubStd_without_bracket (s : string) :
  Text.contains "[" s = false ->
  Rmt.scrubStd s = Text.Trim Text.nl s
  /\ Rmt.scrubStd (Rmt.scrubStd s) = Rmt.scrubStd s.
Proof.
  intros H.
  assert (Ht : Text.contains "[" (Text.Trim Text.nl s) = false)
    by (apply ScrubMore.contains_TrimLeft, ScrubMore.contains_TrimRight, H).
  assert (E : Rmt.scrubStd s = Text.Trim Text.nl s)
    by (apply RegexpFacts.replace_nobracket, Ht).
  split; [exact E|]. rewrite E. unfold Rmt.scrubStd.
  rewrite ScrubMore.Trim_idem. apply RegexpFacts.replace_nobracket, Ht.
Qed.

Lemma scrubStd_without_bracket_witness :
  Rmt.scrubStd (Text.str Text.nl +:+ "cat: f: No such file" +:+ Text.str Text.nl)
  = Text.Trim Text.nl (Text.str Text.nl +:+ "cat: f: No such file" +:+ Text.str Text.nl)
  /\ Rmt.scrubStd (Rmt.scrubStd (Text.str Text.nl +:+ "cat: f: No such file" +:+ Text.str Text.nl))
     = Rmt.scrubStd (Text.str Text.nl +:+ "cat: f: No such file" +:+ Text.str Text.nl).
Proof.
  exact (scrubStd_without_bracket
           (Text.str Text.nl +:+ "cat: f: No such file" +:+ Text.str Text.nl) eq_refl).
Defined.

(** X4: [sudopattern] matches at the start of a text exactly when the text
    starts with [[sudo] password for ], a name of one byte or more with no
    colon in it, a colon and a space; the match is then that prompt and
    the scan goes on with what follows it.  So a prompt for an empty name
    or for a name with a colon is not a match. *)
Theorem sudopattern_matches_prompts (s rest : string) :
  Regexp.matchAt s = Some rest <->
  exists u : string, Regexp.isName u = true /\ s = Regexp.prompt u +:+ rest.
Proof.
  split; [apply RegexpFacts.matchAt_inv|].
  intros (u & Hu & ->). apply RegexpFacts.matchAt_prompt, Hu.
Qed.

(** ** More on [run] and [put] *)
Module RunMore.
Import Text TextFacts Err Gossh Rmt.

Lemma resolve_inline (user : string) :
  (if String.eqb user "" || String.eqb user "-" then "root" else user)
  = Escalation.resolve user.
Proof.
  unfold Escalation.resolve, Escalation.superuser.
  destruct (String.eqb user ""), (String.eqb user "-"); reflexivity.
Qed.

Lemma run_sudo_resolved (net : Net) (r : Remote) (cmd stdin user : string) (w : World) :
  run net r cmd stdin true user w =
  run net r cmd stdin true (Escalation.resolve user) w.
Proof.
  unfold run. rewrite !resolve_inline.
  assert (E : Escalation.resolve (Escalation.resolve user) = Escalation.resolve user).
  { unfold Escalation.resolve, Escalation.superuser.
    destruct (String.eqb user "") eqn:E1; [reflexivity|].
    destruct (String.eqb user "-") eqn:E2; [reflexivity|].
    rewrite E1, E2. reflexivity. }
  rewrite E. reflexivity.
Qed.

End RunMore.

(** X5: on a target that holds a connection, [run] always returns (it
    does not panic); it leaves the sftp caches as they are; when no
    session can be created it runs nothing and returns an error;
    otherwise it runs exactly one command and closes the session it
    opened, whatever the command's result. *)
Theorem run_one_command_one_session (net : Rmt.Net) (r : Rmt.Remote) (cmd stdin : string)
    (sudo : bool) (user : string) (w : Rmt.World) :
  Rmt.conn r <> Construct.nilConn ->
  exists (out : Gossh.Response * option Err.error) (l : list Rmt.Event),
    Rmt.run net r cmd stdin sudo user w =
      Some (out, Rmt.mkWorld (Rmt.caches w) (Rmt.fresh w) (Rmt.log w ++ l))
    /\ match Rmt.newSession net (Rmt.conn r) with
       | Some _ => l = [Rmt.EvNewSession (Rmt.conn r)] /\ out.2 <> None
       | None =>
           exists c i : string,
             l = [Rmt.EvNewSession (Rmt.conn r); Rmt.EvRun c i; Rmt.EvSessionClose]
       end.
Proof.
  intros _. destruct (Rmt.newSession net (Rmt.conn r)) as [e|] eqn:H.
  - rewrite (RunFacts.run_no_session net r cmd stdin sudo user w e H).
    eexists _, _. split; [reflexivity|]. split; [reflexivity | discriminate].
  - rewrite (RunFacts.run_session net r cmd stdin sudo user w H).
    eexists _, _. split; [reflexivity|]. eexists _, _. reflexivity.
Qed.

Lemma run_one_command_one_session_witness :
  exists (out : Gossh.Response * option Err.error) (l : list Rmt.Event),
    Rmt.run Fixture.quiet Fixture.host "ls" "" false "gossh" Fixture.w0 =
      Some (out, Rmt.mkWorld (Rmt.caches Fixture.w0) (Rmt.fresh Fixture.w0)
                   (Rmt.log Fixture.w0 ++ l))
    /\ exists c i : string,
         l = [Rmt.EvNewSession 1%nat; Rmt.EvRun c i; Rmt.EvSessionClose].
Proof.
  exact (run_one_command_one_session Fixture.quiet Fixture.host "ls" "" false "gossh"
           Fixture.w0 ltac:(discriminate)).
Defined.

(** X6: [run] does not look at the active identity of its target: only
    the flag and the user it is given count.  Without the flag the user
    is not looked at either, and with the flag two users that resolve to
    the same name (the empty one, [-] and root) give the same run. *)
Theorem run_ignores_active_identity (net : Rmt.Net) (r : Rmt.Remote)
    (a cmd stdin : string) (sudo : bool) (user user' : string) (w : Rmt.World) :
  Rmt.run net (Rmt.As r a) cmd stdin sudo user w = Rmt.run net r cmd stdin sudo user w
  /\ Rmt.run net r cmd stdin false user w = Rmt.run net r cmd stdin false user' w
  /\ (Escalation.resolve user = Escalation.resolve user' ->
      Rmt.run net r cmd stdin true user w = Rmt.run net r cmd stdin true user' w).
Proof.
  split; [reflexivity|]. split; [reflexivity|].
  intros E. rewrite (RunMore.run_sudo_resolved net r cmd stdin user w),
    (RunMore.run_sudo_resolved net r cmd stdin user' w), E. reflexivity.
Qed.

Lemma run_ignores_active_identity_witness :
  Rmt.run Fixture.quiet Fixture.host "id" "" true "" Fixture.w0
  = Rmt.run Fixture.quiet Fixture.host "id" "" true "-" Fixture.w0.
Proof.
  exact (proj2 (proj2 (run_ignores_active_identity Fixture.quiet Fixture.host
                         "www" "id" "" true "" "-" Fixture.w0)) eq_refl).
Defined.

(** X7: on a target that holds a connection, [put] never escalates: it
    does not look at the active identity, runs no command but
    [/usr/bin/scp -tr <path>] and leaves the sftp caches as they are; it
    panics exactly when the session was created and its stdin pipe could
    not be had. *)
Theorem put_never_escalates (net : Rmt.Net) (r : Rmt.Remote) (a content : string)
    (size : Z) (path : string) (mode : N) (w : Rmt.World) :
  Rmt.conn r <> Construct.nilConn ->
  Rmt.put net (Rmt.As r a) content size path mode w = Rmt.put net r content size path mode w
  /\ (forall (res : option Err.error) (w' : Rmt.World),
        Rmt.put net r content size path mode w = Some (res, w') ->
        Rmt.caches w' = Rmt.caches w /\ Rmt.fresh w' = Rmt.fresh w
        /\ exists l : list Rmt.Event,
             Rmt.log w' = Rmt.log w ++ l
             /\ (forall c i : string, ~ In (Rmt.EvRun c i) l)
             /\ (forall c i : string,
                   In (Rmt.EvCombinedOutput c i) l -> c = "/usr/bin/scp -tr " +:+ path))
  /\ (Rmt.put net r content size path mode w = None <->
      Rmt.newSession net (Rmt.conn r) = None /\ Rmt.stdinPipe net = None).
Proof.
  intros _. split; [reflexivity|].
  destruct (Rmt.newSession net (Rmt.conn r)) as [e|] eqn:H.
  - rewrite (PutFacts.put_no_session net r content size path mode w e H). split.
    + intros res w' [= <- <-]. simpl. split; [reflexivity|]. split; [reflexivity|].
      eexists. split; [reflexivity|].
      split; intros c i [E|[]]; discriminate.
    + split; [discriminate | intros [E _]; discriminate].
  - destruct (Rmt.stdinPipe net) as [p|] eqn:Hp.
    + rewrite (PutFacts.put_session net r content size path mode w p H Hp). split.
      * intros res w' [= <- <-]. simpl. split; [reflexivity|]. split; [reflexivity|].
        eexists. split; [reflexivity|].
        split; intros c i [E|[E|[E|[]]]]; try discriminate.
        injection E as <- _. reflexivity.
      * split; [discriminate | intros [_ E]; discriminate].
    + rewrite (PutFacts.put_no_pipe net r content size path mode w H Hp). split.
      * discriminate.
      * split; auto.
Qed.

Lemma put_never_escalates_witness :
  Rmt.put Fixture.quiet Fixture.host "hello" 5 "/tmp/x.txt" 420 Fixture.w0 = None <->
  Rmt.newSession Fixture.quiet (Rmt.conn Fixture.host) = None
  /\ Rmt.stdinPipe Fixture.quiet = None.
Proof.
  exact (proj2 (proj2 (put_never_escalates Fixture.quiet Fixture.host "root" "hello" 5
                         "/tmp/x.txt" 420 Fixture.w0 ltac:(discriminate)))).
Defined.

(** ** The pipe and the header *)
Module PipeMore.
Import Text TextFacts Err Rmt Scp.

Lemma take_all (k : nat) (s : string) :
  (String.length s <= k)%nat -> substring 0 k s = s.
Proof.
  revert k. induction s as [|a s IH]; intros k H.
  - destruct k; reflexivity.
  - destruct k as [|k]; [simpl in H; lia|]. simpl. rewrite IH; [reflexivity|].
    simpl in H. lia.
Qed.

Lemma take_none (s : string) : substring 0 0 s = "".
Proof. destruct s; reflexivity. Qed.

Lemma take_app (k : nat) (a b : string) :
  substring 0 k (a +:+ b) = substring 0 k a +:+ substring 0 (k - String.length a) b.
Proof.
  revert k. induction a as [|x a IH]; intros k.
  - rewrite sapp_nil_l. simpl String.length. rewrite Nat.sub_0_r.
    destruct k; reflexivity.
  - rewrite sapp_cons. destruct k as [|k].
    + simpl. rewrite take_none. reflexivity.
    + simpl. rewrite IH, sapp_cons. reflexivity.
Qed.

Lemma length_take (k : nat) (s : string) :
  String.length (substring 0 k s) = Nat.min k (String.length s).
Proof.
  revert k. induction s as [|a s IH]; intros [|k]; try reflexivity.
  simpl. rewrite IH. reflexivity.
Qed.

(** A write on a pipe with room for [k] bytes delivers the first [k]
    bytes of the data, and fails exactly when the data is longer. *)
Lemma Write_limited (d b : string) (k : nat) :
  (Write (mkPipe d (Some k)) b).1
  = mkPipe (d +:+ substring 0 k b) (Some (k - String.length b)%nat)
  /\ ((Write (mkPipe d (Some k)) b).2 = None <-> (String.length b <= k)%nat).
Proof.
  unfold Write. simpl. destruct (Nat.leb_spec (String.length b) k) as [H|H]; simpl.
  - rewrite take_all by exact H. split; [reflexivity|]. split; auto.
  - replace (k - String.length b)%nat with 0%nat by lia.
    split; [reflexivity|]. split; [discriminate | lia].
Qed.

Lemma taken_limited (k : nat) (content : string) (size : Z) (path : string) (mode : N) :
  taken (mkPipe "" (Some k)) content size path mode
  = substring 0 k (header mode size path +:+ content +:+ str nul).
Proof.
  unfold taken.
  rewrite (proj1 (Write_limited _ _ _)). cbn [fst].
  rewrite (proj1 (Write_limited _ _ _)). cbn [fst].
  rewrite (proj1 (Write_limited _ _ _)). cbn [delivered].
  rewrite !take_app, sapp_nil_l, sapp_assoc. reflexivity.
Qed.

Lemma contains_afterLast (c : ascii) (s : string) : contains c (afterLast c s) = false.
Proof.
  induction s as [|a s IH]; [reflexivity|].
  simpl. destruct (contains c s) eqn:E; [exact IH|].
  destruct (Ascii.eqb a c) eqn:Ea; [exact E|]. simpl. rewrite Ea, E. reflexivity.
Qed.

End PipeMore.

(** X8: when the stdin pipe of [put] breaks after [k] bytes, the remote
    command has read exactly the first [k] bytes of header, content and
    end marker, in that order and with no gap: the end marker arrives
    only when all of the content did. *)
Theorem put_delivers_a_prefix (net : Rmt.Net) (r : Rmt.Remote) (content : string)
    (size : Z) (path : string) (mode : N) (w : Rmt.World) (k : nat) :
  Rmt.newSession net (Rmt.conn r) = None ->
  Rmt.stdinPipe net = Some (Rmt.mkPipe "" (Some k)) ->
  let whole := Scp.header mode size path +:+ content +:+ Text.str Text.nul in
  exists (res : option Err.error) (w' : Rmt.World),
    Rmt.put net r content size path mode w = Some (res, w')
    /\ Rmt.log w' = Rmt.log w ++
         [Rmt.EvNewSession (Rmt.conn r);
          Rmt.EvCombinedOutput ("/usr/bin/scp -tr " +:+ path) (substring 0 k whole);
          Rmt.EvSessionClose]
    /\ String.length (substring 0 k whole) = Nat.min k (String.length whole)
    /\ ((String.length whole <= k)%nat -> substring 0 k whole = whole).
Proof.
  intros H Hp whole.
  rewrite (PutFacts.put_session net r content size path mode w _ H Hp).
  rewrite PipeMore.taken_limited. fold whole.
  eexists _, _. split; [reflexivity|]. split; [reflexivity|].
  split; [apply PipeMore.length_take | apply PipeMore.take_all].
Qed.

Lemma put_delivers_a_prefix_witness :
  exists (res : option Err.error) (w' : Rmt.World),
    Rmt.put (Fixture.far "" None (Some 16%nat)) Fixture.host "hello" 5 "/tmp/x.txt" 420
      Fixture.w0 = Some (res, w')
    /\ Rmt.log w' =
         [Rmt.EvNewSession 1%nat;
          Rmt.EvCombinedOutput "/usr/bin/scp -tr /tmp/x.txt"
            ("C0644 5 x.txt" +:+ Text.str Text.nl +:+ "he");
          Rmt.EvSessionClose].
Proof.
  destruct (put_delivers_a_prefix (Fixture.far "" None (Some 16%nat)) Fixture.host "hello" 5
              "/tmp/x.txt" 420 Fixture.w0 16%nat eq_refl eq_refl)
    as (res & w' & Hput & Hlog & _).
  exists res, w'. split; [exact Hput | exact Hlog].
Defined.


(** ** More on the sftp cache *)
Module CacheMore.
Import Text TextFacts Err Rmt Sessions CacheFacts CacheShape.

Section WithNet.
Variable net : Net.

(** The three ways [Mkdir] goes. *)
Lemma Mkdir_cached (r : Remote) (path : string) (w : World) (m : gmap string ClientRef)
    (c : ClientRef) :
  caches w !! sftp r = Some m -> m !! activeuser r = Some c ->
  Mkdir net r path w =
    Some (clientMkdir net c path,
          mkWorld (caches w) (fresh w) (log w ++ [EvMkdir c path])).
Proof.
  intros Hm Hc. unfold Mkdir. RunFacts.unfold_M.
  rewrite (sftpClient_cached net r w m c Hm Hc). reflexivity.
Qed.

Lemma Mkdir_new (r : Remote) (path : string) (w : World) (m : gmap string ClientRef) :
  caches w !! sftp r = Some m -> m !! activeuser r = None ->
  newClient net (kindFor r) = None ->
  Mkdir net r path w =
    Some (clientMkdir net (fresh w) path,
          mkWorld (<[sftp r := <[activeuser r := fresh w]> m]> (caches w))
                  (S (fresh w))
                  (log w ++ [EvNewClient (kindFor r) (fresh w); EvMkdir (fresh w) path])).
Proof.
  intros Hm Hc Hn. unfold Mkdir. RunFacts.unfold_M.
  rewrite (sftpClient_new net r w m Hm Hc Hn). simpl.
  rewrite <- List.app_assoc. reflexivity.
Qed.

Lemma Mkdir_failed (r : Remote) (path : string) (w : World) (e : error) :
  default ∅ (caches w !! sftp r) !! activeuser r = None ->
  newClient net (kindFor r) = Some e ->
  Mkdir net r path w =
    Some (Some (Wrap e ("could not start sftp connection for " +:+ activeuser r)), w).
Proof.
  intros Hc Hn. unfold Mkdir. RunFacts.unfold_M.
  rewrite (sftpClient_failed net r w e Hc Hn). reflexivity.
Qed.

(** One step of a caller: the cache keeps what it has, and stays apart. *)
Lemma sftpClient_grows (r : Remote) (w : World) (m : gmap string ClientRef) :
  caches w !! sftp r = Some m ->
  exists res w' m',
    sftpClient net r w = Some (res, w')
    /\ caches w' !! sftp r = Some m' /\ m ⊆ m' /\ (fresh w <= fresh w')%nat
    /\ (apart m (fresh w) -> apart m' (fresh w')).
Proof.
  intros Hm. destruct (m !! activeuser r) as [c|] eqn:Hc.
  - exists (inl c), w, m. split; [apply (sftpClient_cached net r w m c Hm Hc)|].
    split; [exact Hm|]. split; [reflexivity|]. split; [lia | auto].
  - destruct (newClient net (kindFor r)) as [e|] eqn:Hn.
    + eexists _, w, m. split.
      { apply (sftpClient_failed net r w e); [rewrite Hm; exact Hc | exact Hn]. }
      split; [exact Hm|]. split; [reflexivity|]. split; [lia | auto].
    + eexists _, _, _. split; [apply (sftpClient_new net r w m Hm Hc Hn)|].
      simpl. split; [apply lookup_insert_eq|].
      split; [apply insert_subseteq, Hc|]. split; [lia|].
      intros [Hb Hi]. split.
      * intros u c. destruct (decide (activeuser r = u)) as [<-|Hne].
        -- rewrite lookup_insert_eq. intros [= <-]. lia.
        -- rewrite lookup_insert_ne by exact Hne. intros Hu.
           specialize (Hb u c Hu). lia.
      * intros u u' c.
        destruct (decide (activeuser r = u)) as [<-|Hne];
          destruct (decide (activeuser r = u')) as [<-|Hne'];
          rewrite ?lookup_insert_eq, ?lookup_insert_ne by assumption.
        -- reflexivity.
        -- intros [= <-] Hu. specialize (Hb u' _ Hu). lia.
        -- intros Hu [= <-]. specialize (Hb u _ Hu). lia.
        -- apply Hi.
Qed.

Lemma perform_grows (r : Remote) (op : Op) (w : World) (m : gmap string ClientRef) :
  caches w !! sftp r = Some m ->
  exists w' m',
    perform net r op w = Some (tt, w')
    /\ caches w' !! sftp r = Some m' /\ m ⊆ m' /\ (fresh w <= fresh w')%nat
    /\ (apart m (fresh w) -> apart m' (fresh w')).
Proof.
  intros Hm. destruct op as [u|u path|]; unfold perform.
  - destruct (sftpClient_grows (As r u) w m Hm) as (res & w' & m' & E & H).
    exists w', m'. RunFacts.unfold_M. rewrite E. auto.
  - destruct (sftpClient_grows (As r u) w m Hm) as (res & w' & m' & E & Hm' & H).
    unfold Mkdir. RunFacts.unfold_M. rewrite E. destruct res as [c|e].
    + eexists _, m'. split; [reflexivity|]. simpl. auto.
    + exists w', m'. auto.
  - RunFacts.unfold_M. rewrite Close_log. eexists _, m. split; [reflexivity|].
    simpl. split; [exact Hm|]. split; [reflexivity|]. split; [lia | auto].
Qed.

Lemma performAll_grows (r : Remote) (ops : list Op) (w : World) (m : gmap string ClientRef) :
  caches w !! sftp r = Some m ->
  exists w' m',
    performAll net r ops w = Some (tt, w')
    /\ caches w' !! sftp r = Some m' /\ m ⊆ m' /\ (fresh w <= fresh w')%nat
    /\ (apart m (fresh w) -> apart m' (fresh w')).
Proof.
  revert w m. induction ops as [|op ops IH]; intros w m Hm.
  - exists w, m. split; [reflexivity|].
    split; [exact Hm|]. split; [reflexivity|]. split; [lia | auto].
  - destruct (perform_grows r op w m Hm) as (w1 & m1 & E1 & Hm1 & Hs1 & Hf1 & Ha1).
    destruct (IH w1 m1 Hm1) as (w2 & m2 & E2 & Hm2 & Hs2 & Hf2 & Ha2).
    exists w2, m2. split.
    { simpl. RunFacts.unfold_M. rewrite E1. exact E2. }
    split; [exact Hm2|]. split; [etrans; eassumption|]. split; [lia | auto].
Qed.

End WithNet.
End CacheMore.

(** X10: whatever a caller does in a row (lookups, [Mkdir], [Close], as
    any identities) on a target that holds a connection and whose cache
    exists, every call returns and every client in the cache stays there
    under its identity: none is evicted or replaced, not even by
    [Close]. *)
Theorem cache_only_grows (net : Rmt.Net) (r : Rmt.Remote) (ops : list Sessions.Op)
    (w : Rmt.World) (m : gmap string Rmt.ClientRef) :
  Rmt.conn r <> Construct.nilConn ->
  Rmt.caches w !! Rmt.sftp r = Some m ->
  exists (w' : Rmt.World) (m' : gmap string Rmt.ClientRef),
    Sessions.performAll net r ops w = Some (tt, w')
    /\ Rmt.caches w' !! Rmt.sftp r = Some m'
    /\ forall (u : string) (c : Rmt.ClientRef), m !! u = Some c -> m' !! u = Some c.
Proof.
  intros _ Hm.
  destruct (CacheMore.performAll_grows net r ops w m Hm) as (w' & m' & E & Hm' & Hs & _).
  exists w', m'. split; [exact E|]. split; [exact Hm'|].
  intros u c Hu. eapply lookup_weaken; eassumption.
Qed.

Lemma cache_only_grows_witness :
  exists (w' : Rmt.World) (m' : gmap string Rmt.ClientRef),
    Sessions.performAll Fixture.quiet Fixture.host
      [Sessions.OpSftp "root"; Sessions.OpClose; Sessions.OpMkdir "gossh" "/srv"]
      Fixture.w1 = Some (tt, w')
    /\ Rmt.caches w' !! Rmt.sftp Fixture.host = Some m'
    /\ forall (u : string) (c : Rmt.ClientRef),
         ({[ "gossh" := 0%nat ]} : gmap string Rmt.ClientRef) !! u = Some c ->
         m' !! u = Some c.
Proof.
  exact (cache_only_grows Fixture.quiet Fixture.host
           [Sessions.OpSftp "root"; Sessions.OpClose; Sessions.OpMkdir "gossh" "/srv"]
           Fixture.w1 {[ "gossh" := 0%nat ]} ltac:(discriminate) eq_refl).
Defined.

(** X11: two identities never share a client: from a cache where the
    clients of different identities differ (and are all references handed
    out before), whatever a caller does in a row, the clients of different
    identities still differ. *)
Theorem identities_never_share_a_client (net : Rmt.Net) (r : Rmt.Remote)
    (ops : list Sessions.Op) (w : Rmt.World) (m : gmap string Rmt.ClientRef) :
  Rmt.caches w !! Rmt.sftp r = Some m ->
  CacheShape.apart m (Rmt.fresh w) ->
  exists (w' : Rmt.World) (m' : gmap string Rmt.ClientRef),
    Sessions.performAll net r ops w = Some (tt, w')
    /\ Rmt.caches w' !! Rmt.sftp r = Some m'
    /\ forall (u u' : string) (c : Rmt.ClientRef),
         m' !! u = Some c -> m' !! u' = Some c -> u = u'.
Proof.
  intros Hm Ha.
  destruct (CacheMore.performAll_grows net r ops w m Hm)
    as (w' & m' & E & Hm' & _ & _ & Ha').
  exists w', m'. split; [exact E|]. split; [exact Hm'|].
  exact (proj2 (Ha' Ha)).
Qed.

Lemma apart_empty : CacheShape.apart ∅ 0%nat.
Proof. split; intros u; intros; rewrite lookup_empty in *; discriminate. Qed.

Lemma identities_never_share_a_client_witness :
  exists (w' : Rmt.World) (m' : gmap string Rmt.ClientRef),
    Sessions.performAll Fixture.quiet Fixture.host
      [Sessions.OpSftp "root"; Sessions.OpSftp "www"; Sessions.OpMkdir "gossh" "/srv"]
      Fixture.w0 = Some (tt, w')
    /\ Rmt.caches w' !! Rmt.sftp Fixture.host = Some m'
    /\ forall (u u' : string) (c : Rmt.ClientRef),
         m' !! u = Some c -> m' !! u' = Some c -> u = u'.
Proof.
  exact (identities_never_share_a_client Fixture.quiet Fixture.host
           [Sessions.OpSftp "root"; Sessions.OpSftp "www"; Sessions.OpMkdir "gossh" "/srv"]
           Fixture.w0 ∅ eq_refl apart_empty).
Defined.

(** X12: [Close] does not empty the cache: after it, a lookup for an
    identity that had a client returns that same, closed, client and
    starts no new one, and [Mkdir] sends its request to the closed
    client. *)
Theorem lookup_after_Close_returns_closed_client (net : Rmt.Net) (r : Rmt.Remote)
    (path : string) (w : Rmt.World) (m : gmap string Rmt.ClientRef) (c : Rmt.ClientRef) :
  Rmt.caches w !! Rmt.sftp r = Some m ->
  m !! Rmt.activeuser r = Some c ->
  exists w1 : Rmt.World,
    Rmt.Close net r w = Some (Rmt.connClose net (Rmt.conn r), w1)
    /\ In (Rmt.EvClientClose c) (Rmt.log w1)
    /\ Rmt.sftpClient net r w1 = Some (inl c, w1)
    /\ Rmt.Mkdir net r path w1 =
         Some (Rmt.clientMkdir net c path,
               Rmt.mkWorld (Rmt.caches w1) (Rmt.fresh w1)
                 (Rmt.log w1 ++ [Rmt.EvMkdir c path])).
Proof.
  intros Hm Hc.
  destruct (CacheFacts.Close_closes_cached net r w m (Rmt.activeuser r) c Hm Hc)
    as (w1 & E & Hin & Hcache).
  exists w1. split; [exact E|]. split; [exact Hin|].
  assert (Hm1 : Rmt.caches w1 !! Rmt.sftp r = Some m) by (rewrite Hcache; exact Hm).
  split.
  - apply (CacheFacts.sftpClient_cached net r w1 m c Hm1 Hc).
  - apply (CacheMore.Mkdir_cached net r path w1 m c Hm1 Hc).
Qed.

Lemma lookup_after_Close_returns_closed_client_witness :
  exists w1 : Rmt.World,
    Rmt.Close Fixture.quiet Fixture.host Fixture.w1 = Some (None, w1)
    /\ In (Rmt.EvClientClose 0%nat) (Rmt.log w1)
    /\ Rmt.sftpClient Fixture.quiet Fixture.host w1 = Some (inl 0%nat, w1)
    /\ Rmt.Mkdir Fixture.quiet Fixture.host "/srv" w1 =
         Some (None,
               Rmt.mkWorld (Rmt.caches w1) (Rmt.fresh w1)
                 (Rmt.log w1 ++ [Rmt.EvMkdir 0%nat "/srv"])).
Proof.
  exact (lookup_after_Close_returns_closed_client Fixture.quiet Fixture.host "/srv"
           Fixture.w1 {[ "gossh" := 0%nat ]} 0%nat eq_refl eq_refl).
Defined.

(** X13: [Close] closes the cached clients, one close for each entry of
    the cache and for nothing else, and the connection after them; it
    does so whatever the active identity of the value it is called on. *)
Theorem Close_clients_then_connection (net : Rmt.Net) (r : Rmt.Remote) (a : string)
    (w : Rmt.World) :
  exists cs : list Rmt.ClientRef,
    Rmt.Close net r w =
      Some (Rmt.connClose net (Rmt.conn r),
            Rmt.mkWorld (Rmt.caches w) (Rmt.fresh w)
              (Rmt.log w ++ map Rmt.EvClientClose cs ++ [Rmt.EvConnClose (Rmt.conn r)]))
    /\ length cs = size (default ∅ (Rmt.caches w !! Rmt.sftp r))
    /\ (forall c : Rmt.ClientRef,
          In c cs <-> exists u : string,
                        default ∅ (Rmt.caches w !! Rmt.sftp r) !! u = Some c)
    /\ Rmt.Close net (Rmt.As r a) w = Rmt.Close net r w.
Proof.
  eexists. split; [apply CacheFacts.Close_log|].
  split; [rewrite length_fmap; apply length_map_to_list|]. split; [|reflexivity].
  intros c. rewrite <- list_elem_of_In, list_elem_of_fmap. split.
  - intros ([u c'] & -> & Hin). exists u. apply elem_of_map_to_list in Hin. exact Hin.
  - intros (u & Hu). exists (u, c). split; [reflexivity|].
    apply elem_of_map_to_list. exact Hu.
Qed.


(** ** The secret line, [New], [AgentAuths] and [As] *)
Module ConstructFacts.
Import Text TextFacts Err Rmt Construct.

Lemma readLine_app (a b : string) :
  contains nl a = false -> Sudo.readLine (a +:+ String nl b) = (a, b).
Proof.
  induction a as [|x a IH]; intros H; [reflexivity|].
  simpl in H. apply orb_false_iff in H as [Hx Ha].
  rewrite sapp_cons. simpl. rewrite Hx, IH by exact Ha. reflexivity.
Qed.

Lemma newMap_unused (w : World) : caches w !! newMap w = None.
Proof. apply not_elem_of_dom. unfold newMap. apply is_fresh. Qed.

(** A lookup through a target touches no cache but the target's own. *)
Lemma sftpClient_other_caches (net : Net) (r : Remote) (w w' : World)
    (res : ClientRef + error) (h : MapRef) :
  sftpClient net r w = Some (res, w') -> h <> sftp r ->
  caches w' !! h = caches w !! h.
Proof.
  unfold sftpClient. rewrite CacheFacts.kindFor_sudo.
  unfold mapGet, mapSet, NewClient. RunFacts.unfold_M.
  destruct (default ∅ (caches w !! sftp r) !! activeuser r).
  - intros [= <- <-]. reflexivity.
  - destruct (newClient net (Sessions.kindFor r)).
    + intros [= <- <-]. reflexivity.
    + simpl. destruct (caches w !! sftp r); [|discriminate].
      intros [= <- <-] Hne. simpl. apply lookup_insert_ne. congruence.
Qed.

End ConstructFacts.

(** X15: with a secret that holds no newline, what an escalated [run]
    binds to stdin is the secret as its first line and then exactly what
    an unescalated [run] of the same command binds: once sudo has read
    its line, the command reads the same bytes either way.  A secret with
    a newline in it is cut there, and its rest goes to the command. *)
Theorem escalated_command_reads_the_same_stdin (net : Rmt.Net) (r : Rmt.Remote)
    (cmd stdin user : string) (w : Rmt.World) :
  Rmt.newSession net (Rmt.conn r) = None ->
  exists c i i' : string,
    Rmt.log <$> (snd <$> Rmt.run net r cmd stdin true user w) =
      Some (Rmt.log w ++ [Rmt.EvNewSession (Rmt.conn r); Rmt.EvRun c i; Rmt.EvSessionClose])
    /\ Rmt.log <$> (snd <$> Rmt.run net r cmd stdin false user w) =
         Some (Rmt.log w ++ [Rmt.EvNewSession (Rmt.conn r); Rmt.EvRun cmd i';
                             Rmt.EvSessionClose])
    /\ (Text.contains Text.nl (Rmt.sudopass r) = false ->
        Sudo.readLine i = (Rmt.sudopass r, i'))
    /\ (forall a b : string,
          Rmt.sudopass r = a +:+ Text.str Text.nl +:+ b ->
          Text.contains Text.nl a = false ->
          Sudo.readLine i = (a, b +:+ Text.str Text.nl +:+ i')).
Proof.
  intros H.
  rewrite (RunFacts.run_session net r cmd stdin true user w H),
    (RunFacts.run_session net r cmd stdin false user w H).
  eexists _, _, _. split; [reflexivity|]. split; [reflexivity|].
  unfold Escalation.stdinContract. split.
  - intros Hs. rewrite TextFacts.sapp_assoc.
    apply ConstructFacts.readLine_app, Hs.
  - intros a b -> Ha. rewrite !TextFacts.sapp_assoc.
    apply ConstructFacts.readLine_app, Ha.
Qed.

Lemma escalated_command_reads_the_same_stdin_witness :
  exists c i i' : string,
    Rmt.log <$> (snd <$> Rmt.run Fixture.quiet Fixture.host "wc -c" "abc" true "root"
                           Fixture.w0) =
      Some [Rmt.EvNewSession 1%nat; Rmt.EvRun c i; Rmt.EvSessionClose]
    /\ Rmt.log <$> (snd <$> Rmt.run Fixture.quiet Fixture.host "wc -c" "abc" false "root"
                              Fixture.w0) =
         Some [Rmt.EvNewSession 1%nat; Rmt.EvRun "wc -c" i'; Rmt.EvSessionClose]
    /\ Sudo.readLine i = ("gosshpwd", i').
Proof.
  destruct (escalated_command_reads_the_same_stdin Fixture.quiet Fixture.host "wc -c" "abc"
              "root" Fixture.w0 eq_refl) as (c & i & i' & H1 & H2 & H3 & _).
  exists c, i, i'. split; [exact H1|]. split; [exact H2 | exact (H3 eq_refl)].
Defined.

(** X16: each [New] makes a cache of its own: the map it allocates is one
    that no cache of the world used, it is empty, the caches that were
    there stay as they are, and two targets made one after the other have
    different caches, so that a client looked up through the first, as
    any identity, never shows in the second. *)
Theorem New_makes_a_private_cache
    (dial : string -> string -> Construct.ClientConfig -> Rmt.ConnRef + Err.error)
    (a1 u1 p1 : string) (hk1 : Construct.HostKeyCallback) (au1 : list Construct.AuthMethod)
    (a2 u2 p2 : string) (hk2 : Construct.HostKeyCallback) (au2 : list Construct.AuthMethod)
    (w : Rmt.World) :
  exists (r1 : Rmt.Remote) (e1 : option Err.error) (w1 : Rmt.World)
         (r2 : Rmt.Remote) (e2 : option Err.error) (w2 : Rmt.World),
    Construct.New dial a1 u1 p1 hk1 au1 w = Some ((r1, e1), w1)
    /\ Construct.New dial a2 u2 p2 hk2 au2 w1 = Some ((r2, e2), w2)
    /\ Rmt.caches w !! Rmt.sftp r1 = None
    /\ Rmt.sftp r1 <> Rmt.sftp r2
    /\ Rmt.caches w2 !! Rmt.sftp r1 = Some ∅
    /\ Rmt.caches w2 !! Rmt.sftp r2 = Some ∅
    /\ (forall h : Rmt.MapRef,
          h <> Rmt.sftp r1 -> h <> Rmt.sftp r2 -> Rmt.caches w2 !! h = Rmt.caches w !! h)
    /\ forall (net : Rmt.Net) (u : string) (res : Rmt.ClientRef + Err.error)
              (w3 : Rmt.World),
         Rmt.sftpClient net (Rmt.As r1 u) w2 = Some (res, w3) ->
         Rmt.caches w3 !! Rmt.sftp r2 = Some ∅.
Proof.
  set (h1 := Construct.newMap w).
  set (w1 := Rmt.mkWorld (<[h1 := ∅]> (Rmt.caches w)) (Rmt.fresh w) (Rmt.log w)).
  set (h2 := Construct.newMap w1).
  set (w2 := Rmt.mkWorld (<[h2 := ∅]> (Rmt.caches w1)) (Rmt.fresh w1) (Rmt.log w1)).
  assert (H1 : Rmt.caches w !! h1 = None) by apply ConstructFacts.newMap_unused.
  assert (H2 : Rmt.caches w1 !! h2 = None) by apply ConstructFacts.newMap_unused.
  assert (Hne : h1 <> h2).
  { intros E. rewrite <- E in H2. simpl in H2. rewrite lookup_insert_eq in H2.
    discriminate. }
  assert (E1 : exists r1 e1, Construct.New dial a1 u1 p1 hk1 au1 w = Some ((r1, e1), w1)
                             /\ Rmt.sftp r1 = h1).
  { unfold Construct.New. fold h1. fold w1.
    destruct (dial _ _ _); eexists _, _; split; reflexivity. }
  assert (E2 : exists r2 e2, Construct.New dial a2 u2 p2 hk2 au2 w1 = Some ((r2, e2), w2)
                             /\ Rmt.sftp r2 = h2).
  { unfold Construct.New. fold h2. fold w2.
    destruct (dial _ _ _); eexists _, _; split; reflexivity. }
  destruct E1 as (r1 & e1 & E1 & Hr1). destruct E2 as (r2 & e2 & E2 & Hr2).
  exists r1, e1, w1, r2, e2, w2. rewrite Hr1, Hr2.
  split; [exact E1|]. split; [exact E2|]. split; [exact H1|]. split; [exact Hne|].
  assert (C1 : Rmt.caches w2 !! h1 = Some ∅).
  { simpl. rewrite lookup_insert_ne by congruence. apply lookup_insert_eq. }
  assert (C2 : Rmt.caches w2 !! h2 = Some ∅) by (simpl; apply lookup_insert_eq).
  split; [exact C1|]. split; [exact C2|]. split.
  - intros h Hh1 Hh2. simpl. rewrite !lookup_insert_ne by congruence. reflexivity.
  - intros net u res w3 H.
    rewrite (ConstructFacts.sftpClient_other_caches net (Rmt.As r1 u) w2 w3 res h2 H).
    + exact C2.
    + simpl. congruence.
Qed.

(** X17: a target from [New] acts as the connection user: its active
    identity is the user it was made for, so it needs no sudo, and [New]
    leaves the trace as it was.  When the dial succeeds the target holds
    the connection and no error comes back, and its first sftp lookup
    starts a direct client on that connection; when the dial fails the
    target holds no connection and the error names the address and the
    cause. *)
Theorem New_acts_as_the_connection_user
    (dial : string -> string -> Construct.ClientConfig -> Rmt.ConnRef + Err.error)
    (addr user sudopass : string) (hk : Construct.HostKeyCallback)
    (auths : list Construct.AuthMethod) (w : Rmt.World) :
  exists (r : Rmt.Remote) (e : option Err.error) (w1 : Rmt.World),
    Construct.New dial addr user sudopass hk auths w = Some ((r, e), w1)
    /\ Rmt.User r = user /\ Rmt.connuser r = user /\ Rmt.sudo r = false
    /\ Rmt.String_ r = user +:+ "@" +:+ addr
    /\ Rmt.sudopass r = sudopass
    /\ Rmt.log w1 = Rmt.log w /\ Rmt.fresh w1 = Rmt.fresh w
    /\ match dial "tcp" addr (Construct.mkClientConfig user auths hk) with
       | inl c =>
           Rmt.conn r = c /\ e = None
           /\ forall net : Rmt.Net,
                Rmt.newClient net (Rmt.DirectClient c) = None ->
                exists w2 : Rmt.World,
                  Rmt.sftpClient net r w1 = Some (inl (Rmt.fresh w), w2)
                  /\ Rmt.log w2 = Rmt.log w ++ [Rmt.EvNewClient (Rmt.DirectClient c)
                                                  (Rmt.fresh w)]
       | inr x =>
           Rmt.conn r = Construct.nilConn
           /\ exists e' : Err.error,
                e = Some e'
                /\ Err.Error e' = "unable to establish ssh connection to " +:+ addr
                                  +:+ ": " +:+ Err.Error x
       end.
Proof.
  unfold Construct.New.
  destruct (dial "tcp" addr (Construct.mkClientConfig user auths hk)) as [c|x] eqn:D;
    eexists _, _, _; (split; [reflexivity|]); cbn [Rmt.User Rmt.activeuser Rmt.connuser];
    (split; [reflexivity|]); (split; [reflexivity|]);
    (split; [unfold Rmt.sudo; simpl; rewrite String.eqb_refl; reflexivity|]);
    (split; [reflexivity|]); (split; [reflexivity|]);
    (split; [reflexivity|]); (split; [reflexivity|]).
  - split; [reflexivity|]. split; [reflexivity|]. intros net Hn.
    match goal with
    | |- context [Rmt.sftpClient net ?r ?w1] =>
        pose proof (CacheFacts.sftpClient_new net r w1 ∅) as Hnew
    end.
    unfold Sessions.kindFor in Hnew. simpl in Hnew. rewrite String.eqb_refl in Hnew.
    specialize (Hnew (lookup_insert_eq _ _ _) (lookup_empty _) Hn).
    eexists. split; [exact Hnew | reflexivity].
  - split; [reflexivity|]. eexists. split; [reflexivity|].
    cbn [Err.Error Err.Wrap]. apply TextFacts.sapp_assoc.
Qed.

(** X18: [AgentAuths] leaves no connection to the agent open, and the
    method it returns when the agent's socket answered reads its keys
    from a connection that is already closed when [AgentAuths] returns;
    when the socket cannot be dialled the method offers no key.  It never
    fails. *)
Theorem AgentAuths_agent_is_closed (env : Construct.AgentEnv) (s : Construct.Sockets) :
  (forall c : Construct.AgentConn,
     In c (Construct.openSocks s) -> (c < Construct.nextSock s)%nat) ->
  Construct.openSocks (Construct.AgentAuths env s).2 = Construct.openSocks s
  /\ match (Construct.AgentAuths env s).1 with
     | Construct.PublicKeysCallback c =>
         Construct.dialUnix env (Construct.getenv env "SSH_AUTH_SOCK") = None
         /\ ~ In c (Construct.openSocks (Construct.AgentAuths env s).2)
     | Construct.PublicKeys signers =>
         signers = []
         /\ Construct.dialUnix env (Construct.getenv env "SSH_AUTH_SOCK") <> None
     | Construct.Password _ => False
     end.
Proof.
  intros Hs. unfold Construct.AgentAuths.
  destruct (Construct.dialUnix env (Construct.getenv env "SSH_AUTH_SOCK")) as [e|] eqn:D.
  - simpl. split; [reflexivity|]. split; [reflexivity | discriminate].
  - assert (Hn : ~ In (Construct.nextSock s) (Construct.openSocks s)).
    { intros Hin. specialize (Hs _ Hin). lia. }
    cbn [fst snd Construct.openSocks Construct.nextSock].
    simpl remove. destruct (Nat.eq_dec _ _) as [_|Hne]; [|congruence].
    rewrite notin_remove by exact Hn. split; [reflexivity|]. split; [reflexivity | exact Hn].
Qed.

Lemma AgentAuths_agent_is_closed_witness :
  Construct.AgentAuths
    (Construct.mkAgentEnv (fun _ => "/tmp/ssh-agent.sock") (fun _ => None))
    (Construct.mkSockets 3%nat [1%nat])
  = (Construct.PublicKeysCallback 3%nat, Construct.mkSockets 4%nat [1%nat])
  /\ ~ In 3%nat [1%nat].
Proof.
  destruct (AgentAuths_agent_is_closed
              (Construct.mkAgentEnv (fun _ => "/tmp/ssh-agent.sock") (fun _ => None))
              (Construct.mkSockets 3%nat [1%nat])
              ltac:(simpl; intros c [<-|[]]; lia)) as [_ [_ H]].
  split; [reflexivity | exact H].
Defined.

(** X19: [As] composes: the last identity asked for is the active one,
    asking for the active identity changes nothing, and asking for the
    connection user turns escalation off; a target needs sudo exactly
    when its active identity is not the connection user; and [String]
    shows the connection user and the address whatever the active
    identity. *)
Theorem As_composes (r : Rmt.Remote) (u v : string) :
  Rmt.As (Rmt.As r u) v = Rmt.As r v
  /\ Rmt.As r (Rmt.activeuser r) = r
  /\ (Rmt.sudo (Rmt.As r u) = true <-> u <> Rmt.connuser r)
  /\ Rmt.sudo (Rmt.As (Rmt.As r u) (Rmt.connuser r)) = false
  /\ Rmt.String_ (Rmt.As r u) = Rmt.String_ r
  /\ Rmt.User (Rmt.As (Rmt.As r u) v) = v.
Proof.
  split; [reflexivity|]. split; [destruct r; reflexivity|]. split.
  - unfold Rmt.sudo. simpl. rewrite negb_true_iff. apply String.eqb_neq.
  - split; [unfold Rmt.sudo; simpl; rewrite String.eqb_refl; reflexivity|].
    split; reflexivity.
Qed.

(** ** The scrub on every input *)
Module ScanFacts.
Import Text TextFacts Regexp RegexpFacts Rmt ScanSpec.

Lemma TrimRight_split (c : ascii) (s : string) :
  exists k : nat, s = TrimRight c s +:+ rep k c.
Proof.
  induction s as [|a s (k & IH)]; [exists 0%nat; reflexivity|].
  rewrite TrimRight_cons. destruct (TrimRight c s) as [|x t].
  - rewrite sapp_nil_l in IH. destruct (Ascii.eqb_spec a c) as [->|Hne].
    + exists (S k). rewrite IH. reflexivity.
    + exists k. rewrite IH at 1. reflexivity.
  - exists k. rewrite sapp_cons. f_equal. exact IH.
Qed.

Lemma TrimLeft_split (c : ascii) (s : string) :
  exists k : nat, s = rep k c +:+ TrimLeft c s.
Proof.
  induction s as [|a s (k & IH)]; [exists 0%nat; reflexivity|].
  simpl. destruct (Ascii.eqb_spec a c) as [->|Hne].
  - exists (S k). simpl rep. rewrite sapp_cons. f_equal. exact IH.
  - exists 0%nat. reflexivity.
Qed.

Lemma Trim_split (c : ascii) (s : string) :
  exists a b : nat, s = rep a c +:+ Trim c s +:+ rep b c.
Proof.
  destruct (TrimRight_split c s) as (b & Hb).
  destruct (TrimLeft_split c (TrimRight c s)) as (a & Ha).
  exists a, b. unfold Trim. rewrite <- sapp_assoc, <- Ha. exact Hb.
Qed.

Lemma no_lead (c : ascii) (t x : string) : TrimLeft c t = t -> t <> String c x.
Proof.
  intros H ->. simpl in H. rewrite Ascii.eqb_refl in H.
  pose proof (ScrubMore.length_TrimLeft c x) as L. rewrite H in L. simpl in L. lia.
Qed.

Lemma no_trail (c : ascii) (t x : string) : TrimRight c t = t -> t <> x +:+ str c.
Proof.
  intros H ->. change (str c) with (rep 1 c) in H. rewrite TrimRight_rep in H.
  pose proof (ScrubMore.length_TrimRight c x) as L. rewrite H, slength_app in L.
  simpl in L. lia.
Qed.

Lemma lead_fixed (c : ascii) (t : string) :
  (forall x, t <> String c x) -> TrimLeft c t = t.
Proof.
  destruct t as [|a t]; intros H; [reflexivity|].
  simpl. destruct (Ascii.eqb_spec a c) as [->|Hne]; [|reflexivity].
  destruct (H t). reflexivity.
Qed.

Lemma trail_fixed (c : ascii) (t : string) :
  (forall x, t <> x +:+ str c) -> TrimRight c t = t.
Proof.
  induction t as [|a t IH]; intros H; [reflexivity|].
  rewrite TrimRight_cons, IH.
  - destruct t as [|b t]; [|reflexivity].
    destruct (Ascii.eqb_spec a c) as [->|Hne]; [|reflexivity].
    destruct (H ""). reflexivity.
  - intros x ->. apply (H (String a x)). reflexivity.
Qed.

Lemma Trim_fixed (c : ascii) (s : string) :
  TrimLeft c (Trim c s) = Trim c s /\ TrimRight c (Trim c s) = Trim c s.
Proof.
  unfold Trim. split; [apply TrimLeft_idem|].
  apply ScrubMore.TrimRight_TrimLeft, TrimRight_idem.
Qed.

Lemma matchAt_shorter (s rest : string) :
  matchAt s = Some rest -> (String.length rest < String.length s)%nat.
Proof.
  intros (u & _ & ->)%matchAt_inv. rewrite slength_app.
  assert (0 < String.length (prompt u))%nat by (simpl; lia). lia.
Qed.

Lemma not_prompt (s : string) :
  matchAt s = None ->
  forall u rest : string, isName u = true -> s <> prompt u +:+ rest.
Proof.
  intros H u rest Hu ->. rewrite matchAt_prompt in H by exact Hu. discriminate.
Qed.

(** The scan of [ReplaceAllString], with the empty replacement, removes
    from every text what [Removed] says. *)
Lemma Removed_scan (s : string) : Removed s (ReplaceAllString s "").
Proof.
  remember (String.length s) as n eqn:Hn.
  revert s Hn. induction n as [n IH] using lt_wf_ind. intros s ->.
  destruct s as [|a s]; [constructor|].
  destruct (matchAt (String a s)) as [rest|] eqn:E.
  - rewrite (replace_match _ rest) by exact E. rewrite sapp_nil_l.
    destruct (matchAt_inv _ _ E) as (u & Hu & Hs). rewrite Hs.
    apply Removed_prompt; [exact Hu|].
    apply (IH (String.length rest)); [apply matchAt_shorter, E | reflexivity].
  - rewrite replace_nomatch by exact E.
    apply Removed_byte; [apply not_prompt, E|].
    apply (IH (String.length s)); [simpl; lia | reflexivity].
Qed.

(** [Removed] leaves one result only. *)
Lemma Removed_functional (s o1 o2 : string) : Removed s o1 -> Removed s o2 -> o1 = o2.
Proof.
  intros H1. revert o2. induction H1 as [|u rest out Hu H1 IH|a s out Hno H1 IH];
    intros o2 H2.
  - remember EmptyString as t eqn:Et.
    destruct H2 as [|u' rest' out' Hu' H2|a s out' Hno H2].
    + reflexivity.
    + exfalso. revert Et. discriminate.
    + discriminate.
  - remember (prompt u +:+ rest) as t eqn:Et.
    destruct H2 as [|u' rest' out' Hu' H2|a s out' Hno H2].
    + exfalso. revert Et. discriminate.
    + apply IH. assert (E : Some rest' = Some rest).
      { rewrite <- (matchAt_prompt u' rest' Hu'), Et. apply matchAt_prompt, Hu. }
      injection E as <-. exact H2.
    + destruct (Hno u rest Hu Et).
  - remember (String a s) as t eqn:Et.
    destruct H2 as [|u' rest' out' Hu' H2|a' s' out' Hno' H2].
    + discriminate.
    + destruct (Hno u' rest' Hu'). reflexivity.
    + injection Et as -> ->. f_equal. apply IH, H2.
Qed.

End ScanFacts.

(** C5 (as amended): for every input string, [scrubStd] strips every
    leading and every trailing newline and then removes every occurrence
    of the prompt that one scan from the left finds, whatever the names
    in the prompts.  The input is some newlines, its trim, and some
    newlines, where the trim neither starts nor ends with a newline and is
    the only such middle; the result is the trim with every occurrence
    removed, and there is one such text only.  So any number of newlines,
    any number of prompts for any names, a text with no opening bracket
    and no newline at either end, and any number of newlines, scrubs to
    that text; and the prompt for alice followed by [done] and a newline
    scrubs to [done]. *)
Theorem scrubStd_removes_every_prompt_and_newline :
  Rmt.scrubStd ("[sudo] password for alice: done" +:+ Text.str Text.nl) = "done"
  /\ (forall (a b : nat) (us : list string) (t : string),
        forallb Regexp.isName us = true ->
        Text.contains "[" t = false ->
        Text.TrimLeft Text.nl t = t -> Text.TrimRight Text.nl t = t ->
        Rmt.scrubStd (Text.rep a Text.nl +:+ (Regexp.prompts us +:+ t)
                      +:+ Text.rep b Text.nl) = t)
  /\ (forall s : string,
        exists a b : nat,
          s = Text.rep a Text.nl +:+ Text.Trim Text.nl s +:+ Text.rep b Text.nl
          /\ (forall x : string, Text.Trim Text.nl s <> String Text.nl x)
          /\ (forall x : string, Text.Trim Text.nl s <> x +:+ Text.str Text.nl)
          /\ ScanSpec.Removed (Text.Trim Text.nl s) (Rmt.scrubStd s))
  /\ (forall (a b : nat) (t : string),
        (forall x : string, t <> String Text.nl x) ->
        (forall x : string, t <> x +:+ Text.str Text.nl) ->
        Text.Trim Text.nl (Text.rep a Text.nl +:+ t +:+ Text.rep b Text.nl) = t)
  /\ (forall s o1 o2 : string,
        ScanSpec.Removed s o1 -> ScanSpec.Removed s o2 -> o1 = o2).
Proof.
  split; [reflexivity|].
  split; [exact ScrubFacts.scrubStd_prompts_newlines|].
  split; [|split].
  - intros s. destruct (ScanFacts.Trim_split Text.nl s) as (a & b & Hs).
    destruct (ScanFacts.Trim_fixed Text.nl s) as [Hl Hr].
    exists a, b. split; [exact Hs|].
    split; [intros x; apply ScanFacts.no_lead, Hl|].
    split; [intros x; apply ScanFacts.no_trail, Hr|].
    apply ScanFacts.Removed_scan.
  - intros a b t Hl Hr. apply TextFacts.Trim_rep.
    + apply ScanFacts.trail_fixed, Hr.
    + apply ScanFacts.lead_fixed, Hl.
  - exact ScanFacts.Removed_functional.
Qed.

Lemma scrubStd_removes_every_prompt_and_newline_witness :
  Rmt.scrubStd (Text.rep 3 Text.nl
                +:+ (Regexp.prompts ["alice"; "root"; "www data"] +:+ "done")
                +:+ Text.rep 2 Text.nl) = "done".
Proof.
  apply (proj1 (proj2 scrubStd_removes_every_prompt_and_newline) 3%nat 2%nat
           ["alice"; "root"; "www data"] "done"); reflexivity.
Defined.

(** ** The base name, and [Mkdir] step by step *)
Module BaseFacts.
Import Text TextFacts.

Lemma afterLast_split (c : ascii) (s : string) :
  exists pre : string,
    s = pre +:+ afterLast c s /\ (pre = "" \/ exists p : string, pre = p +:+ str c).
Proof.
  induction s as [|a s (pre & Hs & Hpre)]; [exists ""; split; [reflexivity | left; reflexivity]|].
  simpl. destruct (contains c s) eqn:E.
  - exists (String a pre). split; [rewrite sapp_cons; f_equal; exact Hs|].
    right. destruct Hpre as [->|(p & ->)].
    + rewrite sapp_nil_l in Hs. rewrite Hs, PipeMore.contains_afterLast in E.
      discriminate.
    + exists (String a p). reflexivity.
  - destruct (Ascii.eqb_spec a c) as [->|Hne].
    + exists (str c). split; [reflexivity|]. right. exists "". reflexivity.
    + exists "". split; [reflexivity | left; reflexivity].
Qed.

(** [filepath.Base], case by case: the empty path, a path of slashes
    only, and a path whose last element, before any trailing slashes, is
    the base. *)
Lemma Base_cases (path : string) :
  (path = "" /\ Base path = ".")
  \/ (exists k : nat, path = rep (S k) slash /\ Base path = "/")
  \/ (exists (pre : string) (k : nat),
        path = pre +:+ Base path +:+ rep k slash
        /\ Base path <> "" /\ contains slash (Base path) = false
        /\ (pre = "" \/ exists p : string, pre = p +:+ str slash)).
Proof.
  destruct path as [|a p]; [left; split; reflexivity|]. right.
  destruct (ScanFacts.TrimRight_split slash (String a p)) as (k & Hk).
  destruct (afterLast_split slash (TrimRight slash (String a p))) as (pre & Hs & Hpre).
  pose proof (PipeMore.contains_afterLast slash (TrimRight slash (String a p))) as Hno.
  unfold Base.
  destruct (afterLast slash (TrimRight slash (String a p))) as [|x e] eqn:E.
  - rewrite sapp_nil_r in Hs. destruct Hpre as [->|(q & ->)].
    + left. rewrite Hs, sapp_nil_l in Hk. destruct k as [|k]; [discriminate|].
      exists k. split; [exact Hk | reflexivity].
    + exfalso.
      apply (ScanFacts.no_trail slash (TrimRight slash (String a p)) q);
        [apply TrimRight_idem | exact Hs].
  - right. exists pre, k. split; [rewrite <- sapp_assoc, <- Hs; exact Hk|].
    split; [discriminate|]. split; [exact Hno | exact Hpre].
Qed.

End BaseFacts.

(** X9: the file name in the header that [put] sends is one path element,
    the last of the path: for the empty path it is a dot; for a path of
    slashes only, and for no other, it is a slash; otherwise the path is
    some directories (nothing, or a text that ends in a slash), the name,
    and any number of trailing slashes, and the name is not empty and
    holds no slash. *)
Theorem put_header_name_is_one_element (net : Rmt.Net) (r : Rmt.Remote)
    (content : string) (size : Z) (path : string) (mode : N) (w : Rmt.World) :
  Rmt.newSession net (Rmt.conn r) = None ->
  Rmt.stdinPipe net = Some (Rmt.mkPipe "" None) ->
  exists (name : string) (res : option Err.error) (w' : Rmt.World),
    Rmt.put net r content size path mode w = Some (res, w')
    /\ Rmt.log w' = Rmt.log w ++
         [Rmt.EvNewSession (Rmt.conn r);
          Rmt.EvCombinedOutput ("/usr/bin/scp -tr " +:+ path)
            ("C" +:+ Text.fmt_04o mode +:+ " " +:+ Text.fmt_d size +:+ " " +:+ name
                 +:+ Text.str Text.nl +:+ content +:+ Text.str Text.nul);
          Rmt.EvSessionClose]
    /\ ((path = "" /\ name = ".")
        \/ (exists k : nat, path = Text.rep (S k) Text.slash /\ name = "/")
        \/ (exists (pre : string) (k : nat),
              path = pre +:+ name +:+ Text.rep k Text.slash
              /\ name <> "" /\ Text.contains Text.slash name = false
              /\ (pre = "" \/ exists p : string, pre = p +:+ Text.str Text.slash))).
Proof.
  intros H Hp. exists (Text.Base path).
  rewrite (PutFacts.put_session net r content size path mode w _ H Hp).
  rewrite PutFacts.taken_unlimited. unfold Scp.header.
  eexists _, _. split; [reflexivity|]. split; [|apply BaseFacts.Base_cases].
  cbn [Rmt.log]. rewrite !TextFacts.sapp_assoc. reflexivity.
Qed.

Lemma put_header_name_is_one_element_witness :
  exists (name : string) (res : option Err.error) (w' : Rmt.World),
    Rmt.put Fixture.quiet Fixture.host "hello" 5 "/tmp/dir//" 420 Fixture.w0 = Some (res, w')
    /\ Rmt.log w' = Rmt.log Fixture.w0 ++
         [Rmt.EvNewSession 1%nat;
          Rmt.EvCombinedOutput "/usr/bin/scp -tr /tmp/dir//"
            ("C0644 5 " +:+ name +:+ Text.str Text.nl +:+ "hello" +:+ Text.str Text.nul);
          Rmt.EvSessionClose]
    /\ ((("/tmp/dir//" : string) = "" /\ name = ".")
        \/ (exists k : nat, "/tmp/dir//" = Text.rep (S k) Text.slash /\ name = "/")
        \/ (exists (pre : string) (k : nat),
              "/tmp/dir//" = pre +:+ name +:+ Text.rep k Text.slash
              /\ name <> "" /\ Text.contains Text.slash name = false
              /\ (pre = "" \/ exists p : string, pre = p +:+ Text.str Text.slash))).
Proof.
  exact (put_header_name_is_one_element Fixture.quiet Fixture.host "hello" 5 "/tmp/dir//"
           420 Fixture.w0 eq_refl eq_refl).
Defined.

(** X14: [Mkdir] sends one request, to the client of the active identity.
    With that client in the cache, it sends the request to it and does
    nothing else.  With none in the cache it starts one client, of the
    kind the identity calls for, stores it under the active identity, and
    sends the request to it; a second [Mkdir] then sends its request to
    that same client and starts nothing.  When the client cannot be
    started [Mkdir] sends no request and caches nothing: the world is as
    before. *)
Theorem Mkdir_reuses_its_client (net : Rmt.Net) (r : Rmt.Remote) (p1 p2 : string)
    (w : Rmt.World) (m : gmap string Rmt.ClientRef) :
  Rmt.caches w !! Rmt.sftp r = Some m ->
  (forall c : Rmt.ClientRef,
     m !! Rmt.activeuser r = Some c ->
     Rmt.Mkdir net r p1 w =
       Some (Rmt.clientMkdir net c p1,
             Rmt.mkWorld (Rmt.caches w) (Rmt.fresh w) (Rmt.log w ++ [Rmt.EvMkdir c p1])))
  /\ (m !! Rmt.activeuser r = None ->
      Rmt.newClient net (Sessions.kindFor r) = None ->
      let c := Rmt.fresh w in
      let w1 := Rmt.mkWorld
                  (<[Rmt.sftp r := <[Rmt.activeuser r := c]> m]> (Rmt.caches w)) (S c)
                  (Rmt.log w ++ [Rmt.EvNewClient (Sessions.kindFor r) c;
                                 Rmt.EvMkdir c p1]) in
      Rmt.Mkdir net r p1 w = Some (Rmt.clientMkdir net c p1, w1)
      /\ Rmt.Mkdir net r p2 w1 =
           Some (Rmt.clientMkdir net c p2,
                 Rmt.mkWorld (Rmt.caches w1) (Rmt.fresh w1)
                   (Rmt.log w1 ++ [Rmt.EvMkdir c p2])))
  /\ (forall e : Err.error,
        m !! Rmt.activeuser r = None ->
        Rmt.newClient net (Sessions.kindFor r) = Some e ->
        Rmt.Mkdir net r p1 w =
          Some (Some (Err.Wrap e ("could not start sftp connection for "
                                  +:+ Rmt.activeuser r)), w)).
Proof.
  intros Hm. split; [|split].
  - intros c Hc. apply (CacheMore.Mkdir_cached net r p1 w m c Hm Hc).
  - intros Hc Hn c w1. split; [apply (CacheMore.Mkdir_new net r p1 w m Hm Hc Hn)|].
    eapply CacheMore.Mkdir_cached; simpl; apply lookup_insert_eq.
  - intros e Hc Hn. apply CacheMore.Mkdir_failed; [rewrite Hm; exact Hc | exact Hn].
Qed.

Lemma Mkdir_reuses_its_client_witness :
  Rmt.Mkdir Fixture.quiet (Rmt.As Fixture.host "root") "/srv" Fixture.w0 =
    Some (None,
          Rmt.mkWorld {[ 1%nat := {[ "root" := 0%nat ]} ]} 1%nat
            [Rmt.EvNewClient (Rmt.SudoClient 1%nat "root" "gosshpwd") 0%nat;
             Rmt.EvMkdir 0%nat "/srv"])
  /\ Rmt.Mkdir Fixture.quiet (Rmt.As Fixture.host "root") "/srv/www"
       (Rmt.mkWorld {[ 1%nat := {[ "root" := 0%nat ]} ]} 1%nat
          [Rmt.EvNewClient (Rmt.SudoClient 1%nat "root" "gosshpwd") 0%nat;
           Rmt.EvMkdir 0%nat "/srv"]) =
       Some (None,
             Rmt.mkWorld {[ 1%nat := {[ "root" := 0%nat ]} ]} 1%nat
               [Rmt.EvNewClient (Rmt.SudoClient 1%nat "root" "gosshpwd") 0%nat;
                Rmt.EvMkdir 0%nat "/srv"; Rmt.EvMkdir 0%nat "/srv/www"]).
Proof.
  exact (proj1 (proj2 (Mkdir_reuses_its_client Fixture.quiet (Rmt.As Fixture.host "root")
                         "/srv" "/srv/www" Fixture.w0 ∅ eq_refl)) eq_refl eq_refl).
Defined.
